(** * IoT multizone dashboard ([app.py]): history aggregation, snapshot
      fetch and command dispatch

    A shallow embedding of the core of [app.py]:
    [ms_to_datetime], [push_history], [fb_get_last], [send_cmd] and the
    "live fetch" statements of the script body.

    Modelling conventions.
    - Python values coming from JSON are the inductive [json]; a Python
      [dict] is a [gmap string json]; [None] is [JNull].
    - Python floats are IEEE-754 binary64 values, computed with the
      Standard Library's [spec_float] operations.
    - A naive [datetime] is the number of microseconds between
      1970-01-01T00:00:00 and the civil time it shows; [fields] and
      [isoformat] render it.
    - A [str] is a [string], each of whose characters stands for one
      character of the Python string.
    - A call either returns or raises: [outcome].
    - The session state and the wall clock are threaded explicitly
      ([World]).
    - What lies outside the repository (the process's time zone, the text
      parser behind [float(str)], the sorting routine of the data-frame
      library, the HTTP relay, the remote database) enters as a class or a
      section variable. *)

From Stdlib Require Import ZArith String List Lia.
From Stdlib Require Import Sorting.Sorted Sorting.Permutation.
From Stdlib Require Import Floats.SpecFloat.
From stdpp Require Import base option list gmap strings sorting pretty.

#[local] Set Warnings "-register-all".
#[local] Open Scope Z_scope.

(* ===================================================================== *)
(** * Python values, exceptions and builtins                              *)
(* ===================================================================== *)

Module Python.

(** Values decoded from JSON. [JNull] is Python's [None]. *)
Inductive json :=
| JNull
| JBool (b : bool)
| JInt (z : Z)
| JFloat (f : spec_float)
| JStr (s : string)
| JList (l : list json)
| JDict (m : gmap string json).

(** Exception classes that the modelled code can meet.  The first two
    derive from [BaseException] only; every other one derives from
    [Exception]. *)
Inductive exn_class :=
| KeyboardInterrupt
| SystemExit
| KeyError
| AttributeError
| TypeError
| ValueError
| OverflowError
| ConnectionError     (* requests: refused connection, DNS failure *)
| Timeout             (* requests: connect or read timeout *)
| SSLError            (* requests: TLS failure *)
| RequestException    (* requests: any other failure of the request *)
| FirebaseError       (* firebase_admin: service error *)
| OtherException (name : string).

(** A raised exception: its class and [str(e)]. *)
Record exn := Exn { exn_type : exn_class; exn_str : string }.

(** [isinstance(e, Exception)] *)
Definition is_Exception (e : exn) : bool :=
  match exn_type e with
  | KeyboardInterrupt | SystemExit => false
  | _ => true
  end.

(** Errors of the transport layer of an HTTP request. *)
Definition is_transport_error (e : exn) : bool :=
  match exn_type e with
  | ConnectionError | Timeout | SSLError => true
  | _ => false
  end.

(** The result of a call: a returned value or a raised exception. *)
Inductive outcome (A : Type) :=
| Ret (a : A)
| Raise (e : exn).
Arguments Ret {A} a.
Arguments Raise {A} e.

Definition bind {A B} (x : outcome A) (k : A -> outcome B) : outcome B :=
  match x with
  | Ret a => k a
  | Raise e => Raise e
  end.

(** Binary64. *)
Definition prec : Z := 53.
Definition emax : Z := 1024.
Definition float := spec_float.

(** [float(n)] for an [int]: correctly rounded; [None] stands for the
    [OverflowError] of an integer too large for a float. *)
Definition float_of_int (z : Z) : option float :=
  match binary_normalize prec emax z 0 false with
  | S754_infinity _ => None
  | f => Some f
  end.

Definition fdiv (x y : float) : float := SFdiv prec emax x y.
Definition fmul (x y : float) : float := SFmul prec emax x y.

(** The float literals of the program. *)
Definition f1000 : float := Eval vm_compute in binary_normalize prec emax 1000 0 false.
Definition f1e6 : float := Eval vm_compute in binary_normalize prec emax 1000000 0 false.

(** Truth value of an object ([bool(x)]). *)
Definition truthy (v : json) : bool :=
  match v with
  | JNull => false
  | JBool b => b
  | JInt z => negb (z =? 0)
  | JFloat (S754_zero _) => false
  | JFloat _ => true
  | JStr s => negb (String.eqb s "")
  | JList l => match l with [] => false | _ => true end
  | JDict m => negb (bool_decide (m = ∅))
  end.

(** [seq[start:]] for an integer [start], on a sequence held as a list. *)
Definition slice_from {A} (start : Z) (l : list A) : list A :=
  if start <? 0
  then drop (Z.to_nat (Z.max 0 (Z.of_nat (length l) + start))) l
  else drop (Z.to_nat start) l.

(** [s[:n]] on a string, for [n >= 0]. *)
Definition str_prefix (n : nat) (s : string) : string := substring 0 n s.

End Python.

Export Python.

(* ===================================================================== *)
(** * The platform: what the interpreter and the host decide              *)
(* ===================================================================== *)

(** [str_to_float s] is [float(s)] on a string ([None]: [ValueError]);
    [utcoffset u] is the offset of local time from UTC, in seconds, that
    the host's time-zone rules give at epoch second [u];
    [wall_clock k] is what the [k]-th reading of the host's clock made by
    the process shows, as a naive local time in microseconds.
    An offset from UTC is always less than a day. *)
Class Platform := {
  str_to_float : string -> option float;
  utcoffset : Z -> Z;
  wall_clock : nat -> Z;
  utcoffset_bounded : forall u, - 86400 < utcoffset u < 86400
}.

(* ===================================================================== *)
(** * Naive datetimes                                                     *)
(* ===================================================================== *)

Module Datetime.

(** A naive datetime, as microseconds of civil time since
    1970-01-01T00:00:00. *)
Definition datetime := Z.

(** Proleptic Gregorian calendar: days since 1970-01-01 of a civil date,
    and back. *)
Definition days_from_civil (y m d : Z) : Z :=
  let y' := if m <=? 2 then y - 1 else y in
  let era := y' / 400 in
  let yoe := y' mod 400 in
  let mp := if m <=? 2 then m + 9 else m - 3 in
  let doy := (153 * mp + 2) / 5 + d - 1 in
  let doe := yoe * 365 + yoe / 4 - yoe / 100 + doy in
  era * 146097 + doe - 719468.

Definition civil_from_days (z : Z) : Z * Z * Z :=
  let z' := z + 719468 in
  let era := z' / 146097 in
  let doe := z' mod 146097 in
  let yoe := (doe - doe / 1460 + doe / 36524 - doe / 146096) / 365 in
  let doy := doe - (365 * yoe + yoe / 4 - yoe / 100) in
  let mp := (5 * doy + 2) / 153 in
  let d := doy - (153 * mp + 2) / 5 + 1 in
  let m := if mp <? 10 then mp + 3 else mp - 9 in
  let y := yoe + era * 400 in
  (if m <=? 2 then y + 1 else y, m, d).

Record civil := Civil {
  year : Z; month : Z; day : Z;
  hour : Z; minute : Z; second : Z; microsecond : Z
}.

(** The fields a datetime shows. *)
Definition fields (t : datetime) : civil :=
  let s := t / 1000000 in
  let sod := s mod 86400 in
  let '(y, m, d) := civil_from_days (s / 86400) in
  Civil y m d (sod / 3600) (sod mod 3600 / 60) (sod mod 60) (t mod 1000000).

(** The datetime that shows given fields. *)
Definition of_fields (c : civil) : datetime :=
  ((days_from_civil (year c) (month c) (day c) * 86400
    + hour c * 3600 + minute c * 60 + second c) * 1000000) + microsecond c.

(** Decimal rendering of a non-negative number on at least [w] digits. *)
Definition zero_pad (w : nat) (n : Z) : string :=
  let s := pretty (Z.to_N n) in
  String.concat "" (replicate (w - String.length s)%nat "0"%string) +:+ s.

(** [d.isoformat()] *)
Definition isoformat (t : datetime) : string :=
  let c := fields t in
  zero_pad 4 (year c) +:+ "-" +:+ zero_pad 2 (month c) +:+ "-" +:+ zero_pad 2 (day c)
  +:+ "T" +:+ zero_pad 2 (hour c) +:+ ":" +:+ zero_pad 2 (minute c)
  +:+ ":" +:+ zero_pad 2 (second c)
  +:+ (if microsecond c =? 0 then "" else "." +:+ zero_pad 6 (microsecond c)).

Definition MINYEAR : Z := 1.
Definition MAXYEAR : Z := 9999.

(** [modf] on a finite float with mantissa [m] and exponent [e] of sign
    [s]: the integral part, as an integer, and the fractional part, as a
    float of the same sign (exact). *)
Definition modf (s : bool) (m : positive) (e : Z) : Z * float :=
  if 0 <=? e then (cond_Zopp s (Z.pos m * 2 ^ e), S754_zero s)
  else
    let q := Z.pos m / 2 ^ (- e) in
    let r := Z.pos m mod 2 ^ (- e) in
    (cond_Zopp s q, binary_normalize prec emax (cond_Zopp s r) e s).

(** Rounding of a float to the nearest integer, ties to even. *)
Definition round_half_even (x : float) : Z :=
  match x with
  | S754_finite s m e =>
      if 0 <=? e then cond_Zopp s (Z.pos m * 2 ^ e)
      else
        let q := Z.pos m / 2 ^ (- e) in
        let r := Z.pos m mod 2 ^ (- e) in
        let half := 2 ^ (- e - 1) in
        cond_Zopp s
          (if r <? half then q
           else if half <? r then q + 1
           else if Z.even q then q else q + 1)
  | _ => 0
  end.

(** Split of a timestamp in seconds into whole seconds and microseconds
    in [0, 10^6); seconds outside a 64-bit [time_t] are an
    [OverflowError]. *)
Definition to_timeval (s : bool) (m : positive) (e : Z) : option (Z * Z) :=
  let '(intpart, frac) := modf s m e in
  let us := round_half_even (fmul frac f1e6) in
  let '(sec, us) :=
    if 1000000 <=? us then (intpart + 1, us - 1000000)
    else if us <? 0 then (intpart - 1, us + 1000000)
    else (intpart, us) in
  if (- 2 ^ 63 <=? sec) && (sec <? 2 ^ 63) then Some (sec, us) else None.

Section Local.
Context `{Platform}.

(** Local civil seconds of an epoch second. *)
Definition localtime (u : Z) : Z := u + utcoffset u.

Definition year_in_range (local : Z) : bool :=
  let '(y, _, _) := civil_from_days (local / 86400) in
  (MINYEAR <=? y) && (y <=? MAXYEAR).

(** Local datetime of [sec] seconds and [us] microseconds since the
    epoch.  The year must be in [MINYEAR, MAXYEAR], also for the probe
    one day earlier that decides the fold; otherwise [ValueError]. *)
Definition from_timeval (sec us : Z) : option datetime :=
  if year_in_range (localtime sec) && year_in_range (localtime (sec - 86400))
  then Some (localtime sec * 1000000 + us)
  else None.

(** [datetime.fromtimestamp(x)] without [tz]: the naive local time, or
    [None] when the call raises ([ValueError] for a NaN or a year out of
    range, [OverflowError] for an infinity or a value beyond [time_t]). *)
Definition fromtimestamp (x : float) : option datetime :=
  match x with
  | S754_nan => None
  | S754_infinity _ => None
  | S754_zero _ => from_timeval 0 0
  | S754_finite s m e =>
      match to_timeval s m e with
      | Some (sec, us) => from_timeval sec us
      | None => None
      end
  end.
End Local.

End Datetime.

Export Datetime.

(* ===================================================================== *)
(** * The data frame of the history                                       *)
(* ===================================================================== *)

Module Frame.

(** A row of the history frame, with the six columns of the program.
    The [time] cell is [None] when it holds a missing value. *)
Record Row := mkRow {
  r_time : option datetime;
  r_temperature : json;
  r_humidity : json;
  r_luminosity : json;
  r_sound : json;
  r_fan_state : json
}.

(** A frame is the sequence of its rows, in positional order (the index
    labels play no part in what follows). *)
Definition DataFrame := list Row.

(** [pd.concat([df, pd.DataFrame([row])], ignore_index=True)] *)
Definition concat (df : DataFrame) (rows : list Row) : DataFrame := df ++ rows.

Definition notna (r : Row) : bool :=
  match r_time r with Some _ => true | None => false end.

(** [df.dropna(subset=["time"])] *)
Definition dropna (df : DataFrame) : DataFrame := List.filter notna df.

(** Ascending order on the [time] column, missing values last. *)
Definition time_le (r1 r2 : Row) : Prop :=
  match r_time r1, r_time r2 with
  | Some a, Some b => a <= b
  | _, None => True
  | None, Some _ => False
  end.

(** [df.sort_values("time")]: the library returns the rows reordered so
    that [time] ascends; which of two rows of equal time comes first is
    the library's choice (its default algorithm is not stable). *)
Class SortValues := {
  sort_values : DataFrame -> DataFrame;
  sort_values_Sorted : forall df, Sorted time_le (sort_values df);
  sort_values_Permutation : forall df, Permutation (sort_values df) df
}.

(** [df.iloc[start:]] *)
Definition iloc_from (start : Z) (df : DataFrame) : DataFrame := slice_from start df.

(** The times of the rows of a frame, in order. *)
Definition times (df : DataFrame) : list datetime := omap r_time df.

(** How many rows of a frame have time [t]. *)
Definition count_time (t : datetime) (df : DataFrame) : nat :=
  length (List.filter (fun r => bool_decide (r_time r = Some t)) df).

(** A frame is a history series in good standing when every row has a
    time and the times ascend. *)
Definition sorted_by_time (df : DataFrame) : Prop :=
  Forall (fun r => notna r = true) df /\ StronglySorted time_le df.


(** [df] holds the [c] most recent of the rows [rows]: it is in good
    standing, it has [c] rows, or all of them when [rows] has fewer, and
    it is [rows] less some rows none of which is more recent than a row
    of [df]. *)
Definition most_recent (c : nat) (rows df : DataFrame) : Prop :=
  sorted_by_time df /\
  length df = Nat.min (length rows) c /\
  exists evicted,
    Permutation rows (evicted ++ df) /\
    forall e r, e ∈ evicted -> r ∈ df -> time_le e r.

End Frame.

Export Frame.

(* ===================================================================== *)
(** * The program                                                         *)
(* ===================================================================== *)

Module App.

(** [NODES = ["node1", "node2"]] *)
Definition NODES : list string := ["node1"; "node2"]%string.

(** The default of [HISTORY_POINTS]. *)
Definition HISTORY_POINTS_default : Z := 120.

(** The state of a session: [st.session_state["hist"]], and how many
    times the process has read the wall clock so far. *)
Record World := mkWorld {
  session_hist : gmap string DataFrame;
  clock : nat
}.

(** Lines 101-102: every node starts with an empty frame. *)
Definition init_hist : gmap string DataFrame :=
  list_to_map ((fun n => (n, @nil Row)) <$> NODES).

Definition init_world (k : nat) : World := mkWorld init_hist k.

(** [type(v).__name__] *)
Definition type_name (v : json) : string :=
  match v with
  | JNull => "NoneType"
  | JBool _ => "bool"
  | JInt _ => "int"
  | JFloat _ => "float"
  | JStr _ => "str"
  | JList _ => "list"
  | JDict _ => "dict"
  end.

(** [d.get(k)] on a dict: the value, or [None] when the key is absent. *)
Definition dict_get (m : gmap string json) (k : string) : json :=
  default JNull (m !! k).

Section Aggregator.
Context `{Platform} `{SortValues}.

(** [HISTORY_POINTS = int(os.getenv("HISTORY_POINTS", "120"))] *)
Variable HISTORY_POINTS : Z.

(** [float(x)]; [None] when the call raises ([TypeError], [ValueError]
    or [OverflowError]). *)
Definition py_float (v : json) : option float :=
  match v with
  | JNull => None
  | JBool b => float_of_int (if b then 1 else 0)
  | JInt z => float_of_int z
  | JFloat f => Some f
  | JStr s => str_to_float s
  | JList _ => None
  | JDict _ => None
  end.

(** Lines 67-73.  The result is [None] or a datetime. *)
Definition ms_to_datetime (ts_ms : json) : option datetime :=
  match ts_ms with
  | JNull => None
  | _ =>
      match py_float ts_ms with
      | Some x => fromtimestamp (fdiv x f1000)
      | None => None
      end
  end.

(** [dt.datetime.now()]: one more reading of the wall clock. *)
Definition datetime_now (w : World) : datetime * World :=
  (wall_clock (clock w), mkWorld (session_hist w) (S (clock w))).

(** Line 107: [ms_to_datetime(last.get("ts")) or dt.datetime.now()].
    A datetime is always true, so the clock is read exactly when
    [ms_to_datetime] returns [None]. *)
Definition resolve_time (last : gmap string json) (w : World) : datetime * World :=
  match ms_to_datetime (dict_get last "ts") with
  | Some t => (t, w)
  | None => datetime_now w
  end.

(** Lines 108-115. *)
Definition make_row (t : datetime) (last : gmap string json) : Row :=
  {| r_time := Some t;
     r_temperature := dict_get last "temperature";
     r_humidity := dict_get last "humidity";
     r_luminosity := dict_get last "luminosity";
     r_sound := dict_get last "sound";
     r_fan_state := dict_get last "fan_state" |}.

(** Lines 116-120. *)
Definition append_row (df : DataFrame) (row : Row) : DataFrame :=
  let df := concat df [row] in
  let df := sort_values (dropna df) in
  if Z.of_nat (length df) >? HISTORY_POINTS
  then iloc_from (- HISTORY_POINTS) df
  else df.

(** Lines 105-121.  [KeyError] when the session holds no frame for
    [node_name]; [AttributeError] when [last] has no [get]. *)
Definition push_history (node_name : string) (last : json) (w : World) : outcome World :=
  match session_hist w !! node_name with
  | None => Raise (Exn KeyError ("'" +:+ node_name +:+ "'"))
  | Some df =>
      match last with
      | JDict m =>
          let '(t, w1) := resolve_time m w in
          let df := append_row df (make_row t m) in
          Ret (mkWorld (<[node_name := df]> (session_hist w1)) (clock w1))
      | _ =>
          Raise (Exn AttributeError
                   ("'" +:+ type_name last +:+ "' object has no attribute 'get'"))
      end
  end.

(** The worlds a session can be in: the initial one, and those reached
    by a call of [push_history] that returns. *)
Inductive reachable : World -> Prop :=
| reachable_init k : reachable (init_world k)
| reachable_push w node_name last w' :
    reachable w ->
    push_history node_name last w = Ret w' ->
    reachable w'.

(** A run of appends on one frame, given the rows in the order of the
    calls. *)
Definition append_rows (rows : list Row) : DataFrame :=
  fold_left append_row rows [].

(** A sequence of appends for one node, one call per snapshot. *)
Definition push_all (node_name : string) (snapshots : list (gmap string json))
    (w : World) : outcome World :=
  fold_left (fun acc m => bind acc (push_history node_name (JDict m)))
            snapshots (Ret w).

(** [appended node w rows]: in the session that led to [w], the calls of
    [push_history] for [node] appended the rows [rows], in this order. *)
Inductive appended (node : string) : World -> list Row -> Prop :=
| appended_init k : appended node (init_world k) []
| appended_here w rows m w' :
    appended node w rows ->
    push_history node (JDict m) w = Ret w' ->
    appended node w' (rows ++ [make_row (resolve_time m w).1 m])
| appended_other w rows node' last w' :
    appended node w rows ->
    node' <> node ->
    push_history node' last w = Ret w' ->
    appended node w' rows.

Section Fetcher.
(** [db.reference(path).get()]: the value at [path], or the exception
    the client raises. *)
Variable db_get : string -> outcome json.

(** Lines 41-47. *)
Definition fb_get_last (node : string) : outcome json :=
  db_get ("/iot/" +:+ node +:+ "/last").

(** Lines 125-127: [last = fb_get_last(node) or {}], then the append
    when [last] is true.  Returns [last] and the new state. *)
Definition live_fetch (node : string) (w : World) : outcome (json * World) :=
  bind (fb_get_last node) (fun val =>
    let last := if truthy val then val else JDict ∅ in
    if truthy last
    then bind (push_history node last w) (fun w' => Ret (last, w'))
    else Ret (last, w)).
End Fetcher.
End Aggregator.

(** An HTTP response: [r.status_code] and [r.text]. *)
Record Response := mkResponse { status_code : Z; text : string }.

(** Lines 54-57: the body of the request. *)
Definition cmd_body (node : string) (payload : json) : json :=
  JDict (<["node" := JStr node]> (<["payload" := payload]> ∅)).

Section Dispatcher.
(** [NODERED_CMD_URL] and [requests.post(url, json=body, timeout=t)]. *)
Variable NODERED_CMD_URL : string.
Variable requests_post : string -> json -> Z -> outcome Response.

(** Lines 50-64. *)
Definition send_cmd (node : string) (payload : json) : outcome (bool * string) :=
  let body := cmd_body node payload in
  match requests_post NODERED_CMD_URL body 3 with
  | Ret r =>
      if (200 <=? status_code r) && (status_code r <? 300)
      then Ret (true, "OK (" +:+ pretty (status_code r) +:+ ")")
      else Ret (false, "HTTP " +:+ pretty (status_code r) +:+ ": "
                        +:+ str_prefix 200 (text r))
  | Raise e =>
      if is_Exception e then Ret (false, exn_str e) else Raise e
  end.
End Dispatcher.

End App.

Export App.

(* ===================================================================== *)
(** * The rest of the script: start-up, refresh loop, charts              *)
(* ===================================================================== *)

Module Script.

(** An initialised Firebase app: its credential and its options. *)
Record FirebaseApp := mkFirebaseApp {
  app_credential : json;
  app_options : gmap string json
}.

(** The name under which [firebase_admin] registers the default app. *)
Definition DEFAULT_APP_NAME : string := "[DEFAULT]".

(** [firebase_admin.initialize_app(cred, options)] on the registry
    [firebase_admin._apps]: registers the default app, [ValueError] when
    there is one already. *)
Definition initialize_app (cred : json) (options : gmap string json)
    (apps : gmap string FirebaseApp) : outcome (gmap string FirebaseApp) :=
  match apps !! DEFAULT_APP_NAME with
  | Some _ => Raise (Exn ValueError "The default Firebase app already exists.")
  | None => Ret (<[DEFAULT_APP_NAME := mkFirebaseApp cred options]> apps)
  end.

Section Firebase.
(** [FIREBASE_DB_URL], [FIREBASE_SERVICE_ACCOUNT], and
    [credentials.Certificate(path)], which reads the key file and raises
    when it cannot. *)
Variable FIREBASE_DB_URL : string.
Variable FIREBASE_SERVICE_ACCOUNT : string.
Variable Certificate : string -> outcome json.

(** Lines 34-38: the body of [init_firebase], on the registry of apps.
    ([st.cache_resource] runs this body on the first call of a process
    and hands out its result afterwards.) *)
Definition init_firebase (apps : gmap string FirebaseApp)
  : outcome (bool * gmap string FirebaseApp) :=
  if bool_decide (apps = ∅)
  then
    bind (Certificate FIREBASE_SERVICE_ACCOUNT) (fun cred =>
    bind (initialize_app cred (<["databaseURL" := JStr FIREBASE_DB_URL]> ∅) apps)
         (fun apps' => Ret (true, apps')))
  else Ret (true, apps).
End Firebase.

(** Lines 148-153: the charts are drawn when the frame of the selected
    node has at least two rows; otherwise the page shows a notice. *)
Definition charts_drawn (node : string) (w : World) : outcome bool :=
  match session_hist w !! node with
  | None => Raise (Exn KeyError ("'" +:+ node +:+ "'"))
  | Some hist_df => Ret (2 <=? Z.of_nat (length (hist_df : DataFrame)))
  end.

Section Loop.
Context `{Platform} `{SortValues}.
Variable HISTORY_POINTS : Z.

(** The runs of the script that auto refresh chains (lines 200-203): each
    run has the node selected in the side bar and the remote store as it
    is then; it does the live fetch (lines 125-127), draws the page,
    sleeps and starts the next run.  Drawing the page leaves the session
    state alone and is taken to return.  A run whose live fetch raises
    ends the chain. *)
Fixpoint auto_refresh (runs : list (string * (string -> outcome json)))
    (w : World) : outcome World :=
  match runs with
  | [] => Ret w
  | (node, db_get) :: rest =>
      bind (live_fetch HISTORY_POINTS db_get node w)
           (fun r => auto_refresh rest r.2)
  end.

(** A snapshot that carries no timestamp to read: the key [ts] is absent,
    or its value is [None], a list, a dict, a string that [float]
    rejects, a NaN, an infinity, an integer too large for a float, or a
    number of milliseconds (a float, an integer, or a string that reads
    as a number) whose thousandth the library's [datetime.fromtimestamp]
    does not accept as a number of seconds: beyond the seconds the
    platform counts, or in a year outside 1 to 9999.  A boolean is none
    of these. *)
Definition no_usable_timestamp (m : gmap string json) : Prop :=
  m !! "ts"%string = None
  \/ m !! "ts"%string = Some JNull
  \/ (exists l, m !! "ts"%string = Some (JList l))
  \/ (exists d, m !! "ts"%string = Some (JDict d))
  \/ (exists s, m !! "ts"%string = Some (JStr s) /\ str_to_float s = None)
  \/ m !! "ts"%string = Some (JFloat S754_nan)
  \/ (exists b, m !! "ts"%string = Some (JFloat (S754_infinity b)))
  \/ (exists z, m !! "ts"%string = Some (JInt z) /\
                match binary_normalize prec emax z 0 false with
                | S754_infinity _ => True
                | _ => False
                end)
  \/ (exists x,
        (m !! "ts"%string = Some (JFloat x)
         \/ (exists z, m !! "ts"%string = Some (JInt z) /\
                       binary_normalize prec emax z 0 false = x)
         \/ (exists s, m !! "ts"%string = Some (JStr s) /\
                       str_to_float s = Some x))
        /\ fromtimestamp (fdiv x f1000) = None).

(** The rows that a sequence of appends makes, one per snapshot, from the
    world in which the first call starts. *)
Fixpoint rows_made (snapshots : list (gmap string json)) (w : World) : list Row :=
  match snapshots with
  | [] => []
  | m :: rest =>
      make_row (resolve_time m w).1 m :: rows_made rest (resolve_time m w).2
  end.
End Loop.

End Script.

Export Script.

(* ===================================================================== *)
(** * Instances used to run the program on concrete inputs                *)
(* ===================================================================== *)

(** Text of a decimal integer literal, read from the left. *)
Fixpoint parse_digits (acc : Z) (s : string) : option Z :=
  match s with
  | EmptyString => Some acc
  | String c s' =>
      let n := Z.of_N (Ascii.N_of_ascii c) - 48 in
      if (0 <=? n) && (n <=? 9) then parse_digits (10 * acc + n) s' else None
  end.

(** A text parser for [float(str)] that accepts unsigned decimal integer
    literals and rejects everything else.  The inputs below carry no
    string timestamp. *)
Definition digits_to_float (s : string) : option float :=
  match s with
  | EmptyString => None
  | _ => match parse_digits 0 s with Some z => float_of_int z | None => None end
  end.

(** A host whose local time is [off] seconds ahead of UTC all year, and
    whose clock shows 2023-11-14T22:13:20 UTC at the first reading and
    1.5 s more at each later one. *)
Definition fixed_offset_platform (off : Z) (Hoff : - 86400 < off < 86400) : Platform := {|
  str_to_float := digits_to_float;
  utcoffset := fun _ => off;
  wall_clock := fun k => (1700000000 + off) * 1000000 + Z.of_nat k * 1500000;
  utcoffset_bounded := fun _ => Hoff
|}.

(** A host on UTC, and one an hour ahead of it. *)
Definition utc_platform : Platform := fixed_offset_platform 0 (conj eq_refl eq_refl).
Definition cet_platform : Platform := fixed_offset_platform 3600 (conj eq_refl eq_refl).

(** 24.5 as a binary64 value. *)
Definition f24_5 : float := Eval vm_compute in binary_normalize prec emax 49 (-1) false.

(** The snapshot [{temperature: 24.5, humidity: 55, ts: 1700000000000}]. *)
Definition sample_snapshot : gmap string json :=
  <["temperature" := JFloat f24_5]>
    (<["humidity" := JInt 55]> (<["ts" := JInt 1700000000000]> ∅)).

(** A snapshot without [ts]. *)
Definition untimed_snapshot : gmap string json :=
  <["temperature" := JFloat f24_5]> (<["humidity" := JInt 55]> ∅).

(** Snapshots number [0 .. n-1], one per second from 1700000000 s. *)
Definition numbered_snapshot (i : nat) : gmap string json :=
  <["sound" := JInt (Z.of_nat i)]>
    (<["ts" := JInt (1700000000000 + 1000 * Z.of_nat i)]> ∅).

(** The initial world after one append of the sample snapshot for
    ["node2"], on a host on UTC. *)
Definition world_after_sample : World :=
  mkWorld (<["node2"%string := [mkRow (Some 1700000000000000) (JFloat f24_5)
                                  (JInt 55) JNull JNull JNull]]> init_hist) 0.

(** The command [{cmd: "set_rgb", r: 0, g: 120, b: 255}]. *)
Definition set_rgb_payload : json :=
  JDict (<["cmd" := JStr "set_rgb"]>
           (<["r" := JInt 0]> (<["g" := JInt 120]> (<["b" := JInt 255]> ∅)))).

(** A relay that answers every request with status [s] and body [body],
    and one whose every request raises [e]. *)
Definition relay_returning (s : Z) (body : string)
  : string -> json -> Z -> outcome Response :=
  fun _ _ _ => Ret (mkResponse s body).

Definition relay_raising (e : exn) : string -> json -> Z -> outcome Response :=
  fun _ _ _ => Raise e.

Definition read_timed_out : exn :=
  Exn Timeout "HTTPConnectionPool(host='relay', port=1880): Read timed out. (read timeout=3)".

(** A remote store that holds nothing, and one that cannot be reached. *)
Definition empty_store : string -> outcome json := fun _ => Ret JNull.

Definition unreachable_store : string -> outcome json :=
  fun _ => Raise (Exn ConnectionError "Failed to establish a new connection").

(** A remote store that holds the sample snapshot for every node, and
    one that holds a list. *)
Definition sample_store : string -> outcome json :=
  fun _ => Ret (JDict sample_snapshot).

Definition list_store : string -> outcome json :=
  fun _ => Ret (JList [JInt 1; JInt 2]).

(** A key file that loads, and one that is missing. *)
Definition key_loads : string -> outcome json :=
  fun path => Ret (JDict (<["type" := JStr "service_account"]> ∅)).

Definition key_missing : string -> outcome json :=
  fun path => Raise (Exn (OtherException "FileNotFoundError")
                         ("[Errno 2] No such file or directory: '" +:+ path +:+ "'")).

(** The registry after a first [init_firebase]. *)
Definition apps_after_init : gmap string FirebaseApp :=
  <[DEFAULT_APP_NAME :=
      mkFirebaseApp (JDict (<["type" := JStr "service_account"]> ∅))
                    (<["databaseURL" := JStr "https://db.example/"]> ∅)]> ∅.

(** A frame of two rows, one second apart, and the world that holds it
    for ["node2"]. *)
Definition two_rows : DataFrame :=
  [mkRow (Some 1700000000000000) JNull JNull JNull (JInt 0) JNull;
   mkRow (Some 1700000001000000) JNull JNull JNull (JInt 1) JNull].

Definition world_two_rows : World :=
  mkWorld (<["node2"%string := two_rows]> init_hist) 0.



(** A snapshot whose [ts] is a number of milliseconds in a year far
    beyond 9999. *)
Definition far_future_snapshot : gmap string json :=
  <["temperature" := JFloat f24_5]> (<["ts" := JInt (10 ^ 18)]> ∅).

(** A response body of 250 characters. *)
Definition long_body : string := String.concat "" (replicate 250 "x"%string).

(* ===================================================================== *)
(** * Order facts on rows                                                 *)
(* ===================================================================== *)

#[global] Instance time_le_dec r1 r2 : Decision (time_le r1 r2).
Proof.
  unfold time_le. destruct (r_time r1), (r_time r2); apply _.
Defined.

#[global] Instance time_le_total : Total time_le.
Proof.
  intros r1 r2. unfold time_le.
  destruct (r_time r1), (r_time r2); auto. lia.
Qed.

#[global] Instance time_le_trans : Transitive time_le.
Proof.
  intros r1 r2 r3. unfold time_le.
  destruct (r_time r1), (r_time r2), (r_time r3); intros; try tauto; lia.
Qed.

(** An instance of the sorting routine: a stable merge sort. *)
Definition merge_sort_values : SortValues := {|
  sort_values := merge_sort time_le;
  sort_values_Sorted := Sorted_merge_sort time_le;
  sort_values_Permutation := merge_sort_Permutation time_le
|}.

(** Another instance of the sorting routine, which orders rows of equal
    time the other way round: a merge sort of the frame read backwards. *)
Definition reversing_sort_values : SortValues := {|
  sort_values := fun df => merge_sort time_le (reverse df);
  sort_values_Sorted := fun df => Sorted_merge_sort time_le (reverse df);
  sort_values_Permutation := fun df =>
    Permutation_trans (merge_sort_Permutation time_le (reverse df))
                      (reverse_Permutation df)
|}.

(** A snapshot whose timestamp is ten seconds before the sample's. *)
Definition late_snapshot : gmap string json :=
  <["sound" := JInt 7]> (<["ts" := JInt 1699999990000]> ∅).

(* ===================================================================== *)
(** * Facts on slices and on the frame operations                         *)
(* ===================================================================== *)

Lemma slice_from_drop {A} (start : Z) (l : list A) :
  exists n, slice_from start l = drop n l.
Proof. unfold slice_from. destruct (start <? 0); eauto. Qed.

Lemma dropna_notna df : Forall (fun r => notna r = true) (dropna df).
Proof.
  apply List.Forall_forall. intros r Hr.
  apply List.filter_In in Hr. tauto.
Qed.

Lemma dropna_id df : Forall (fun r => notna r = true) df -> dropna df = df.
Proof.
  induction 1 as [|r df Hr _ IH]; simpl; [done|].
  rewrite Hr. by f_equal.
Qed.

Lemma StronglySorted_drop {A} (R : relation A) n (l : list A) :
  StronglySorted R l -> StronglySorted R (drop n l).
Proof.
  intros Hl. rewrite <- (take_drop n l) in Hl.
  by apply StronglySorted_app_1_r in Hl.
Qed.

Lemma sorted_by_time_drop n df : sorted_by_time df -> sorted_by_time (drop n df).
Proof.
  intros [Hna Hs]. split; [by apply Forall_drop | by apply StronglySorted_drop].
Qed.

Lemma sorted_by_time_nil : sorted_by_time [].
Proof. split; constructor. Qed.

(** In a frame in good standing every row contributes its time, and the
    times ascend. *)
Lemma sorted_by_time_times df :
  sorted_by_time df ->
  length (times df) = length df /\ StronglySorted Z.le (times df).
Proof.
  intros [Hna Hs].
  induction Hs as [|r df Hs IH Hr]; [split; [done|constructor]|].
  apply Forall_cons in Hna as [Hr1 Hna]. destruct (IH Hna) as [IHl IHs].
  unfold times in *. simpl. unfold notna in Hr1.
  destruct (r_time r) as [t|] eqn:Ht; [|done].
  simpl. split; [by f_equal|]. constructor; [done|].
  apply Forall_forall. intros t' Ht'.
  apply list_elem_of_omap in Ht' as (r' & Hr' & Hrt').
  rewrite Forall_forall in Hr. specialize (Hr r' Hr').
  unfold time_le in Hr. by rewrite Ht, Hrt' in Hr.
Qed.

Lemma count_time_Permutation t df1 df2 :
  Permutation df1 df2 -> count_time t df1 = count_time t df2.
Proof.
  unfold count_time.
  induction 1 as [|r ? ? _ IH|r1 r2 ?|? ? ? _ IH1 _ IH2]; simpl.
  - done.
  - destruct (bool_decide _); simpl; congruence.
  - destruct (bool_decide (r_time r1 = _)), (bool_decide (r_time r2 = _)); done.
  - congruence.
Qed.

Lemma count_time_snoc t df row :
  r_time row = Some t -> count_time t (df ++ [row]) = S (count_time t df).
Proof.
  intros Hrow. unfold count_time.
  rewrite List.filter_app, length_app. simpl.
  rewrite bool_decide_eq_true_2 by done. simpl. lia.
Qed.

(** The local day that holds the instant one day before epoch second
    1700000000 is in range whatever the offset. *)
Lemma probe_year_in_range off :
  - 86400 < off < 86400 -> year_in_range (1700000000 - 86400 + off) = true.
Proof.
  intros Hoff. unfold year_in_range.
  assert (19673 <= (1700000000 - 86400 + off) / 86400 < 19676) as Hd.
  { split; [apply Z.div_le_lower_bound | apply Z.div_lt_upper_bound]; lia. }
  assert ((1700000000 - 86400 + off) / 86400 = 19673
          \/ (1700000000 - 86400 + off) / 86400 = 19674
          \/ (1700000000 - 86400 + off) / 86400 = 19675) as [-> | [-> | ->]] by lia;
    reflexivity.
Qed.

Lemma sort_values_singleton `{SortValues} row : sort_values [row] = [row].
Proof.
  apply Permutation_singleton_r, sort_values_Permutation.
Qed.

Section AggregatorFacts.
Context `{Platform} `{SortValues}.
Variable HISTORY_POINTS : Z.

#[local] Abbreviation append_row := (append_row HISTORY_POINTS).
#[local] Abbreviation push_history := (push_history HISTORY_POINTS).
#[local] Abbreviation reachable := (reachable HISTORY_POINTS).

Lemma sort_values_length df : length (sort_values df) = length df.
Proof. apply Permutation_length, sort_values_Permutation. Qed.

Lemma sort_values_sorted_by_time df :
  Forall (fun r => notna r = true) df -> sorted_by_time (sort_values df).
Proof.
  intros Hna. split.
  - by rewrite sort_values_Permutation.
  - apply Sorted_StronglySorted; [apply _ | apply sort_values_Sorted].
Qed.

(** Whatever frame and row it is given, [append_row] returns a frame in
    good standing. *)
Lemma append_row_sorted df row : sorted_by_time (append_row df row).
Proof.
  unfold App.append_row.
  pose proof (sort_values_sorted_by_time _ (dropna_notna (concat df [row]))) as Hs.
  destruct (_ >? _); [|done].
  unfold iloc_from. destruct (slice_from_drop (- HISTORY_POINTS)
    (sort_values (dropna (concat df [row])))) as [n ->].
  by apply sorted_by_time_drop.
Qed.

(** The row made by [make_row] has a time. *)
Lemma make_row_notna t last : notna (make_row t last) = true.
Proof. reflexivity. Qed.

(** On a frame in good standing, the [dropna] step of an append removes
    nothing. *)
Lemma dropna_concat_id df row :
  Forall (fun r => notna r = true) df -> notna row = true ->
  dropna (concat df [row]) = concat df [row].
Proof.
  intros Hdf Hrow. apply dropna_id. unfold concat.
  apply Forall_app. split; [done|]. by constructor.
Qed.

(** Below capacity an append keeps every row and adds the new one. *)
Lemma append_row_below df row :
  Forall (fun r => notna r = true) df -> notna row = true ->
  Z.of_nat (length df) < HISTORY_POINTS ->
  Permutation (append_row df row) (df ++ [row]).
Proof.
  intros Hdf Hrow Hlen. unfold App.append_row.
  rewrite dropna_concat_id by done.
  rewrite sort_values_length. unfold concat. rewrite length_app. simpl.
  destruct (Z.gtb_spec (Z.of_nat (length df + 1)) HISTORY_POINTS); [lia|].
  apply sort_values_Permutation.
Qed.

(** [push_history] on a dict, for a node that has a frame. *)
Lemma push_history_dict node_name m w df :
  session_hist w !! node_name = Some df ->
  push_history node_name (JDict m) w =
    Ret (mkWorld
           (<[node_name := append_row df (make_row (resolve_time m w).1 m)]>
              (session_hist w))
           (clock (resolve_time m w).2)).
Proof.
  intros Hdf. unfold App.push_history. rewrite Hdf.
  unfold resolve_time, datetime_now.
  by destruct (ms_to_datetime _).
Qed.

Lemma init_hist_lookup n :
  init_hist !! n = if bool_decide (n ∈ NODES) then Some [] else None.
Proof.
  unfold init_hist, NODES. simpl.
  destruct (decide (n = "node1"%string)) as [->|Hn1]; [done|].
  destruct (decide (n = "node2"%string)) as [->|Hn2]; [done|].
  rewrite lookup_insert_ne by done. rewrite lookup_insert_ne by done.
  rewrite lookup_empty. rewrite bool_decide_eq_false_2; [done|].
  rewrite !elem_of_cons, elem_of_nil. tauto.
Qed.

(** In every reachable world the session holds a frame for exactly the
    known nodes. *)
Lemma reachable_nodes w :
  reachable w -> forall n, is_Some (session_hist w !! n) <-> n ∈ NODES.
Proof.
  induction 1 as [k|w node_name last w' Hw IH Hpush]; intros n.
  - simpl. rewrite init_hist_lookup. case_bool_decide as Hn.
    + split; [done | by eauto].
    + split; [by intros [? ?] | done].
  - unfold App.push_history in Hpush.
    destruct (session_hist w !! node_name) as [df|] eqn:Hdf; [|done].
    destruct last; try done.
    destruct (resolve_time m w) as [t w1] eqn:Hres.
    assert (session_hist w1 = session_hist w) as Hsame.
    { unfold resolve_time, datetime_now in Hres.
      destruct (ms_to_datetime _); by injection Hres as _ <-. }
    injection Hpush as <-; simpl. rewrite Hsame.
    destruct (decide (node_name = n)) as [->|Hne].
    + rewrite lookup_insert_eq. split; [|by eauto].
      intros _. apply IH. by rewrite Hdf.
    + rewrite lookup_insert_ne by done. apply IH.
Qed.

(** In every reachable world every frame is in good standing. *)
Lemma reachable_sorted w :
  reachable w -> forall n df, session_hist w !! n = Some df -> sorted_by_time df.
Proof.
  induction 1 as [k|w node_name last w' Hw IH Hpush]; intros n df.
  - simpl. rewrite init_hist_lookup. case_bool_decide; [|done].
    intros [= <-]. apply sorted_by_time_nil.
  - unfold App.push_history in Hpush.
    destruct (session_hist w !! node_name) as [df0|] eqn:Hdf; [|done].
    destruct last; try done.
    destruct (resolve_time m w) as [t w1] eqn:Hres.
    assert (session_hist w1 = session_hist w) as Hsame.
    { unfold resolve_time, datetime_now in Hres.
      destruct (ms_to_datetime _); by injection Hres as _ <-. }
    injection Hpush as <-; simpl. rewrite Hsame.
    destruct (decide (node_name = n)) as [->|Hne].
    + rewrite lookup_insert_eq. intros [= <-]. apply append_row_sorted.
    + rewrite lookup_insert_ne by done. apply IH.
Qed.

End AggregatorFacts.

(* ===================================================================== *)
(** * The history aggregator                                              *)
(* ===================================================================== *)

Section AggregatorClaims.
Context `{Platform} `{SortValues}.
Variable HISTORY_POINTS : Z.

#[local] Abbreviation append_row := (append_row HISTORY_POINTS).
#[local] Abbreviation push_history := (push_history HISTORY_POINTS).
#[local] Abbreviation reachable := (reachable HISTORY_POINTS).

(** C1.  In every world a session can reach, an append for a known node
    returns, and afterwards the frame of every node has a time in each
    row and is sorted by time ascending: the list of its times ascends.
    Since the world after the call is reachable again, this holds after
    each append of any sequence. *)
Theorem push_history_sorted (w : World) (node_name : string) (m : gmap string json) :
  reachable w ->
  node_name ∈ NODES ->
  exists w',
    push_history node_name (JDict m) w = Ret w' /\
    reachable w' /\
    forall n df,
      session_hist w' !! n = Some df ->
      sorted_by_time df /\
      length (times df) = length df /\
      StronglySorted Z.le (times df).
Proof.
  intros Hw Hn.
  destruct (proj2 (reachable_nodes _ w Hw node_name) Hn) as [df Hdf].
  pose proof (push_history_dict HISTORY_POINTS node_name m w df Hdf) as Hpush.
  eexists. split; [exact Hpush|].
  assert (reachable
            (mkWorld (<[node_name := append_row df (make_row (resolve_time m w).1 m)]>
                        (session_hist w)) (clock (resolve_time m w).2))) as Hw'.
  { eapply reachable_push; eauto. }
  split; [exact Hw'|].
  intros n df' Hdf'.
  pose proof (reachable_sorted _ _ Hw' n df' Hdf') as Hs.
  split; [exact Hs|]. by apply sorted_by_time_times.
Qed.

(** C9.  The step of an append that drops rows without a usable time
    removes nothing: for a frame of [n] rows in a reachable world, with
    [n] below the capacity, one append returns and leaves exactly [n + 1]
    rows, the new row among them. *)
Theorem push_history_row_survives (w : World) (node_name : string)
    (m : gmap string json) (df : DataFrame) :
  reachable w ->
  session_hist w !! node_name = Some df ->
  Z.of_nat (length df) < HISTORY_POINTS ->
  let row := make_row (resolve_time m w).1 m in
  dropna (concat df [row]) = concat df [row] /\
  exists w' df',
    push_history node_name (JDict m) w = Ret w' /\
    session_hist w' !! node_name = Some df' /\
    length df' = S (length df) /\
    row ∈ df'.
Proof.
  intros Hw Hdf Hlen row.
  destruct (reachable_sorted _ w Hw node_name df Hdf) as [Hna _].
  split; [by apply dropna_concat_id|].
  pose proof (append_row_below HISTORY_POINTS df row Hna eq_refl Hlen) as Hperm.
  eexists _, (append_row df row).
  split; [by apply push_history_dict|].
  split; [simpl; by rewrite lookup_insert_eq|].
  split.
  - rewrite (Permutation_length Hperm), length_app. simpl. lia.
  - rewrite Hperm. apply elem_of_app. right. by apply list_elem_of_singleton.
Qed.

(** C7, as the program has it.  An append does not deduplicate: on a
    frame below capacity in a reachable world it adds one row at the
    resolved time, so the number of rows with that time grows by one,
    also when the frame already has rows with that time. *)
Theorem push_history_no_dedup (w : World) (node_name : string)
    (m : gmap string json) (df : DataFrame) :
  reachable w ->
  session_hist w !! node_name = Some df ->
  Z.of_nat (length df) < HISTORY_POINTS ->
  let t := (resolve_time m w).1 in
  exists w' df',
    push_history node_name (JDict m) w = Ret w' /\
    session_hist w' !! node_name = Some df' /\
    sorted_by_time df' /\
    count_time t df' = S (count_time t df).
Proof.
  intros Hw Hdf Hlen t.
  destruct (reachable_sorted _ w Hw node_name df Hdf) as [Hna _].
  pose proof (append_row_below HISTORY_POINTS df (make_row t m) Hna eq_refl Hlen) as Hperm.
  eexists _, (append_row df (make_row t m)).
  split; [by apply push_history_dict|].
  split; [simpl; by rewrite lookup_insert_eq|].
  split; [apply append_row_sorted|].
  rewrite (count_time_Permutation _ _ _ Hperm). by apply count_time_snoc.
Qed.




(** The sample timestamp on a host whose offset from UTC is [off] at that
    instant. *)
Lemma ms_to_datetime_sample :
  ms_to_datetime (JInt 1700000000000)
  = Some ((1700000000 + utcoffset 1700000000) * 1000000).
Proof.
  assert (float_of_int 1700000000000
          = Some (S754_finite false 6963200000000000 (-12))) as Hfloat
    by (vm_compute; reflexivity).
  assert (fdiv (S754_finite false 6963200000000000 (-12)) f1000
          = S754_finite false 7130316800000000 (-22)) as Hdiv
    by (vm_compute; reflexivity).
  assert (to_timeval false 7130316800000000 (-22) = Some (1700000000, 0)) as Htv
    by (vm_compute; reflexivity).
  unfold ms_to_datetime, py_float. rewrite Hfloat, Hdiv.
  unfold fromtimestamp. rewrite Htv.
  unfold from_timeval, localtime.
  pose proof (utcoffset_bounded 1700000000) as Hoff.
  pose proof (utcoffset_bounded (1700000000 - 86400)) as Hoff'.
  rewrite (probe_year_in_range _ Hoff').
  assert (year_in_range (1700000000 + utcoffset 1700000000) = true) as ->.
  { unfold year_in_range.
    assert (19674 <= (1700000000 + utcoffset 1700000000) / 86400 < 19677) as Hd.
    { split; [apply Z.div_le_lower_bound | apply Z.div_lt_upper_bound]; lia. }
    assert ((1700000000 + utcoffset 1700000000) / 86400 = 19674
            \/ (1700000000 + utcoffset 1700000000) / 86400 = 19675
            \/ (1700000000 + utcoffset 1700000000) / 86400 = 19676)
      as [-> | [-> | ->]] by lia; reflexivity. }
  simpl. f_equal. lia.
Qed.

(** C8, as the program has it.  On a host whose local time is at offset
    zero from UTC at that instant, and with a capacity that is not
    negative, appending the sample snapshot to an empty frame gives a
    frame of exactly one row, of time 2023-11-14T22:13:20 and temperature
    24.5. *)
Theorem push_history_sample (w : World) (node_name : string) :
  utcoffset 1700000000 = 0 ->
  0 <= HISTORY_POINTS ->
  session_hist w !! node_name = Some [] ->
  exists w' row,
    push_history node_name (JDict sample_snapshot) w = Ret w' /\
    session_hist w' !! node_name = Some [row] /\
    isoformat <$> r_time row = Some "2023-11-14T22:13:20"%string /\
    r_temperature row = JFloat f24_5.
Proof.
  intros Hutc Hcap Hdf.
  assert (resolve_time sample_snapshot w = (1700000000000000, w)) as Hres.
  { unfold resolve_time.
    change (dict_get sample_snapshot "ts") with (JInt 1700000000000).
    rewrite ms_to_datetime_sample, Hutc. done. }
  exists (mkWorld (<[node_name := [make_row 1700000000000000 sample_snapshot]]>
                     (session_hist w)) (clock w)),
         (make_row 1700000000000000 sample_snapshot).
  split.
  { rewrite (push_history_dict HISTORY_POINTS node_name _ w [] Hdf), Hres. simpl.
    do 3 f_equal. unfold App.append_row.
    change (dropna (concat [] [make_row 1700000000000000 sample_snapshot]))
      with [make_row 1700000000000000 sample_snapshot].
    rewrite sort_values_singleton. simpl length.
    destruct (Z.gtb_spec (Z.of_nat 1) HISTORY_POINTS) as [Hgt|]; [|done].
    assert (HISTORY_POINTS = 0) as -> by lia. done. }
  split; [simpl; by rewrite lookup_insert_eq|].
  split; reflexivity.
Qed.

End AggregatorClaims.

(* ===================================================================== *)
(** * The capacity bound                                                  *)
(* ===================================================================== *)

Section Capacity.
Context `{Platform} `{SortValues}.
Variable HISTORY_POINTS : Z.

#[local] Abbreviation append_row := (append_row HISTORY_POINTS).
#[local] Abbreviation append_rows := (append_rows HISTORY_POINTS).
#[local] Abbreviation push_history := (push_history HISTORY_POINTS).
#[local] Abbreviation appended := (appended HISTORY_POINTS).

Lemma append_rows_snoc rows row :
  append_rows (rows ++ [row]) = append_row (append_rows rows) row.
Proof. unfold App.append_rows. by rewrite fold_left_app. Qed.

(** A frame with a time in each row, at capacity or beyond: the append
    sorts the old rows with the new one and drops from the front. *)
Lemma append_row_full df row :
  1 <= HISTORY_POINTS ->
  Forall (fun r => notna r = true) df -> notna row = true ->
  HISTORY_POINTS <= Z.of_nat (length df) ->
  append_row df row =
    drop (S (length df) - Z.to_nat HISTORY_POINTS) (sort_values (df ++ [row])).
Proof.
  intros Hc Hdf Hrow Hlen. unfold App.append_row.
  rewrite dropna_concat_id by done. unfold concat.
  assert (length (sort_values (df ++ [row])) = S (length df)) as Hl.
  { rewrite sort_values_length, length_app. simpl. lia. }
  rewrite Hl.
  destruct (Z.gtb_spec (Z.of_nat (S (length df))) HISTORY_POINTS); [|lia].
  unfold iloc_from, slice_from.
  destruct (Z.ltb_spec (- HISTORY_POINTS) 0); [|lia].
  rewrite Hl. f_equal. lia.
Qed.

(** One more append keeps the most recent rows. *)
Lemma append_row_most_recent rows df row :
  1 <= HISTORY_POINTS ->
  notna row = true ->
  most_recent (Z.to_nat HISTORY_POINTS) rows df ->
  most_recent (Z.to_nat HISTORY_POINTS) (rows ++ [row]) (append_row df row).
Proof.
  intros Hc Hrow ([Hna Hsorted] & Hlen & evicted & Hperm & Hold).
  split; [apply append_row_sorted|].
  pose proof (Permutation_length Hperm) as Hlens. rewrite length_app in Hlens.
  destruct (Z.lt_ge_cases (Z.of_nat (length df)) HISTORY_POINTS) as [Hlt|Hge].
  - (* below capacity: nothing was evicted so far, nothing is now *)
    pose proof (append_row_below HISTORY_POINTS df row Hna Hrow Hlt) as Hp.
    assert (evicted = []) as -> by (apply length_zero_iff_nil; lia).
    split.
    + rewrite (Permutation_length Hp), !length_app. simpl. lia.
    + exists []. split.
      * simpl in *. by rewrite Hp, Hperm.
      * intros e r He. by apply elem_of_nil in He.
  - (* at capacity: the oldest row of the sorted frame goes *)
    assert (length df = Z.to_nat HISTORY_POINTS) as Hfull by lia.
    rewrite (append_row_full df row Hc Hna Hrow Hge).
    pose proof (sort_values_Permutation (df ++ [row])) as Hp.
    pose proof (sort_values_sorted_by_time (df ++ [row])) as [_ Hs].
    { apply Forall_app. split; [done|]. by constructor. }
    replace (S (length df) - Z.to_nat HISTORY_POINTS)%nat with 1%nat by lia.
    destruct (sort_values (df ++ [row])) as [|a B] eqn:HS.
    { apply Permutation_length in Hp. rewrite length_app in Hp. simpl in Hp. lia. }
    simpl. rewrite drop_0.
    assert (length B = length df) as HB.
    { apply Permutation_length in Hp. rewrite length_app in Hp. simpl in Hp. lia. }
    apply StronglySorted_cons in Hs as [Ha HsB].
    split; [rewrite length_app; simpl; lia|].
    exists (a :: evicted). split.
    + rewrite Hperm. simpl. rewrite <- (assoc (++)), <- Hp.
      symmetry. apply Permutation_middle.
    + intros e r He Hr. apply elem_of_cons in He as [->|He].
      { rewrite Forall_forall in Ha. by apply Ha. }
      assert (r ∈ df ++ [row]) as Hr' by (rewrite <- Hp; by right).
      apply elem_of_app in Hr' as [Hr'|Hr']; [by apply Hold|].
      apply list_elem_of_singleton in Hr' as ->.
      assert (a ∈ df ++ [row]) as Ha' by (rewrite <- Hp; by left).
      apply elem_of_app in Ha' as [Ha'|Ha'].
      * transitivity a; [by apply Hold|].
        rewrite Forall_forall in Ha. by apply Ha.
      * apply list_elem_of_singleton in Ha' as ->.
        apply Hold; [done|].
        assert (Permutation B df) as <-; [|done].
        apply (Permutation_cons_inv (a := row)).
        rewrite Hp. symmetry. apply Permutation_cons_append.
Qed.

(** For a capacity of at least one, a run of appends of rows that have a
    time leaves the most recent rows, at most as many as the capacity. *)
Theorem append_rows_most_recent rows :
  1 <= HISTORY_POINTS ->
  Forall (fun r => notna r = true) rows ->
  most_recent (Z.to_nat HISTORY_POINTS) rows (append_rows rows).
Proof.
  intros Hc. induction rows as [|row rows IH] using rev_ind; intros Hrows.
  - split; [apply sorted_by_time_nil|]. split; [done|].
    exists []. split; [done|]. intros e r He. by apply elem_of_nil in He.
  - apply Forall_app in Hrows as [Hrows Hrow].
    rewrite append_rows_snoc. apply append_row_most_recent; [done| |by apply IH].
    by inversion Hrow.
Qed.

(** The frame a session holds for a node is the run of the appends made
    for this node, and every appended row has a time. *)
Lemma appended_frame node w rows :
  appended node w rows ->
  node ∈ NODES ->
  session_hist w !! node = Some (append_rows rows) /\
  Forall (fun r => notna r = true) rows.
Proof.
  intros Happ Hn. induction Happ as [k|w rows m w' _ [IH1 IH2] Hpush
                                    |w rows node' last w' _ [IH1 IH2] Hne Hpush].
  - split; [|done]. simpl. rewrite init_hist_lookup.
    by rewrite bool_decide_eq_true_2.
  - rewrite (push_history_dict HISTORY_POINTS node m w _ IH1) in Hpush.
    injection Hpush as <-. simpl. split.
    + by rewrite lookup_insert_eq, append_rows_snoc.
    + apply Forall_app. split; [done|]. by constructor.
  - split; [|done].
    unfold App.push_history in Hpush.
    destruct (session_hist w !! node') as [df'|]; [|done].
    destruct last; try done.
    unfold resolve_time, datetime_now in Hpush.
    destruct (ms_to_datetime _); injection Hpush as <-; simpl;
      by rewrite lookup_insert_ne.
Qed.

(** For a capacity of at least one: after any sequence of appends, the
    frame of a node holds the most recent of the rows appended for it, at
    most as many as the capacity. *)
Theorem push_history_most_recent node w rows :
  1 <= HISTORY_POINTS ->
  node ∈ NODES ->
  appended node w rows ->
  exists df,
    session_hist w !! node = Some df /\
    Z.of_nat (length df) <= HISTORY_POINTS /\
    most_recent (Z.to_nat HISTORY_POINTS) rows df.
Proof.
  intros Hc Hn Happ.
  destruct (appended_frame node w rows Happ Hn) as [Hdf Hrows].
  pose proof (append_rows_most_recent rows Hc Hrows) as Hmr.
  exists (append_rows rows). split; [done|]. split; [|done].
  destruct Hmr as (_ & Hlen & _). lia.
Qed.

(** Every reachable world comes with the rows appended for each node. *)
Lemma reachable_appended w node :
  reachable HISTORY_POINTS w -> exists rows, appended node w rows.
Proof.
  induction 1 as [k|w node_name last w' _ [rows IH] Hpush].
  - exists []. constructor.
  - destruct (decide (node_name = node)) as [->|Hne].
    + assert (exists m, last = JDict m) as [m ->].
      { unfold App.push_history in Hpush.
        destruct (session_hist w !! node); [|done].
        destruct last; try done. by eexists. }
      eexists. by eapply appended_here.
    + exists rows. by eapply appended_other.
Qed.

(** X5.  For a capacity of at least one, no frame of a reachable world
    is longer than the capacity. *)
Theorem reachable_capacity w n df :
  1 <= HISTORY_POINTS ->
  reachable HISTORY_POINTS w ->
  session_hist w !! n = Some df ->
  Z.of_nat (length df) <= HISTORY_POINTS.
Proof.
  intros Hc Hw Hdf.
  assert (n ∈ NODES) as Hn
    by (apply (proj1 (reachable_nodes _ w Hw n)); by exists df).
  destruct (reachable_appended w n Hw) as [rows Hrows].
  destruct (push_history_most_recent n w rows Hc Hn Hrows) as (df' & Hdf' & Hlen & _).
  congruence.
Qed.

(** With a capacity of zero the slice [iloc[-0:]] is the whole frame:
    every append makes the frame one row longer. *)
Lemma append_row_capacity_zero df row :
  HISTORY_POINTS = 0 ->
  Forall (fun r => notna r = true) df -> notna row = true ->
  Permutation (append_row df row) (df ++ [row]).
Proof.
  intros -> Hdf Hrow. unfold App.append_row.
  rewrite dropna_concat_id by done. unfold concat.
  assert (iloc_from (- 0) (sort_values (df ++ [row])) = sort_values (df ++ [row]))
    as -> by done.
  destruct (_ >? _); apply sort_values_Permutation.
Qed.

End Capacity.

(** C2, at a capacity of zero.  On any host and with any sorting routine,
    one append to the empty frame of the initial world leaves one row:
    the frame is longer than the capacity. *)
Theorem push_history_capacity_zero `{Platform} `{SortValues} (k : nat) :
  exists w' row,
    push_history 0 "node2" (JDict sample_snapshot) (init_world k) = Ret w' /\
    session_hist w' !! "node2"%string = Some [row] /\
    ~ (Z.of_nat (length [row]) <= 0).
Proof.
  eexists _, _. split; [by apply push_history_dict|].
  split; [|simpl; lia].
  simpl. rewrite lookup_insert_eq. f_equal.
  unfold App.append_row. simpl dropna. rewrite sort_values_singleton. done.
Qed.

(* ===================================================================== *)
(** * The snapshot fetcher and the live fetch                             *)
(* ===================================================================== *)

Section FetcherClaims.
Context `{Platform} `{SortValues}.
Variable HISTORY_POINTS : Z.
Variable db_get : string -> outcome json.

#[local] Abbreviation fb_get_last := (fb_get_last db_get).
#[local] Abbreviation live_fetch := (live_fetch HISTORY_POINTS db_get).

(** A fetched value that is false leaves the session as it was. *)
Lemma live_fetch_falsy node w v :
  fb_get_last node = Ret v -> truthy v = false ->
  live_fetch node w = Ret (JDict ∅, w).
Proof.
  intros Hget Hv. unfold App.live_fetch. rewrite Hget. simpl. by rewrite Hv.
Qed.

(** C10.  When the fetch returns no data, [None] or an empty dict, the
    live fetch makes no append: it returns with the world, hence the
    frame of every node, as it was. *)
Theorem live_fetch_no_data (node : string) (w : World) (v : json) :
  fb_get_last node = Ret v ->
  v = JNull \/ v = JDict ∅ ->
  exists w',
    live_fetch node w = Ret (JDict ∅, w') /\
    w' = w /\
    forall n, session_hist w' !! n = session_hist w !! n.
Proof.
  intros Hget Hv. exists w. split; [|done].
  apply (live_fetch_falsy node w v Hget). by destruct Hv as [-> | ->].
Qed.

(** C6.  When the read of the remote store raises, [fb_get_last] raises
    the same exception: it returns no value, in particular neither [None]
    nor an empty dict, and the live fetch raises too instead of going on
    as it does when there is no data. *)
Theorem fb_get_last_error_propagates (node : string) (w : World) (e : exn) :
  db_get ("/iot/" +:+ node +:+ "/last") = Raise e ->
  fb_get_last node = Raise e /\
  (forall v, fb_get_last node <> Ret v) /\
  live_fetch node w = Raise e /\
  live_fetch node w <> Ret (JDict ∅, w).
Proof.
  intros Hget. unfold App.live_fetch, App.fb_get_last. rewrite Hget. simpl.
  repeat split; done.
Qed.

End FetcherClaims.

(* ===================================================================== *)
(** * The command dispatcher                                              *)
(* ===================================================================== *)

Lemma str_prefix_length n s : (String.length (str_prefix n s) <= n)%nat.
Proof.
  unfold str_prefix. revert s.
  induction n as [|n IH]; intros [|c s]; simpl; try lia.
  specialize (IH s). lia.
Qed.

Lemma str_prefix_prefix n s : String.prefix (str_prefix n s) s = true.
Proof.
  unfold str_prefix. revert s.
  induction n as [|n IH]; intros [|c s]; simpl; try done.
  destruct (Ascii.ascii_dec c c); [apply IH | done].
Qed.

Lemma str_prefix_short n s : (String.length s <= n)%nat -> str_prefix n s = s.
Proof.
  unfold str_prefix. revert s.
  induction n as [|n IH]; intros [|c s]; simpl; intros Hl; try done; try lia.
  f_equal. apply IH. lia.
Qed.

Lemma str_prefix_length_min n s :
  String.length (str_prefix n s) = Nat.min n (String.length s).
Proof.
  unfold str_prefix. revert s.
  induction n as [|n IH]; intros [|c s]; simpl; try done.
  by rewrite IH.
Qed.

Lemma transport_error_is_Exception e :
  is_transport_error e = true -> is_Exception e = true.
Proof.
  unfold is_transport_error, is_Exception. by destruct (exn_type e).
Qed.

Section DispatcherClaims.
Variable NODERED_CMD_URL : string.
Variable requests_post : string -> json -> Z -> outcome Response.

#[local] Abbreviation send_cmd := (send_cmd NODERED_CMD_URL requests_post).

(** C4.  When the request returns a response of status [s]: for
    [200 <= s < 300] the outcome is [(True, "OK (s)")]; for any other
    status it is [(False, "HTTP s: " + shown)], where [shown] is the first
    200 characters of the body: it starts the body, it has 200
    characters when the body has as many and is the whole body
    otherwise. *)
Theorem send_cmd_status (node : string) (payload : json) (r : Response) :
  requests_post NODERED_CMD_URL (cmd_body node payload) 3 = Ret r ->
  (200 <= status_code r < 300 ->
   send_cmd node payload = Ret (true, "OK (" +:+ pretty (status_code r) +:+ ")")) /\
  (~ (200 <= status_code r < 300) ->
   exists shown,
     send_cmd node payload
       = Ret (false, "HTTP " +:+ pretty (status_code r) +:+ ": " +:+ shown) /\
     String.prefix shown (text r) = true /\
     String.length shown = Nat.min 200 (String.length (text r)) /\
     ((String.length (text r) <= 200)%nat -> shown = text r)).
Proof.
  intros Hpost. unfold App.send_cmd. rewrite Hpost. split.
  - intros [Hlo Hhi].
    destruct (Z.leb_spec 200 (status_code r)); [|lia].
    destruct (Z.ltb_spec (status_code r) 300); [|lia]. done.
  - intros Hout. exists (str_prefix 200 (text r)).
    split; [|split; [apply str_prefix_prefix
                    |split; [apply str_prefix_length_min|apply str_prefix_short]]].
    destruct (Z.leb_spec 200 (status_code r)); [|done].
    destruct (Z.ltb_spec (status_code r) 300); [lia|done].
Qed.

(** Every exception of class [Exception] that the request raises becomes
    a failure outcome. *)
Lemma send_cmd_catches node payload e :
  requests_post NODERED_CMD_URL (cmd_body node payload) 3 = Raise e ->
  is_Exception e = true ->
  send_cmd node payload = Ret (false, exn_str e).
Proof.
  intros Hpost He. unfold App.send_cmd. by rewrite Hpost, He.
Qed.

(** C5.  When the request raises a transport error (time-out, refused
    connection or failed name resolution, TLS failure), [send_cmd]
    returns [(False, str(e))]: it does not raise. *)
Theorem send_cmd_transport_error (node : string) (payload : json) (e : exn) :
  requests_post NODERED_CMD_URL (cmd_body node payload) 3 = Raise e ->
  is_transport_error e = true ->
  send_cmd node payload = Ret (false, exn_str e) /\
  forall e', send_cmd node payload <> Raise e'.
Proof.
  intros Hpost He.
  rewrite (send_cmd_catches node payload e Hpost (transport_error_is_Exception e He)).
  done.
Qed.

End DispatcherClaims.

(* ===================================================================== *)
(** * The program on concrete inputs                                      *)
(* ===================================================================== *)

Section Concrete.

#[local] Existing Instance merge_sort_values.

#[local] Abbreviation push_utc := (@push_history utc_platform merge_sort_values 120).
#[local] Abbreviation push_cet := (@push_history cet_platform merge_sort_values 120).
#[local] Abbreviation reachable_utc := (@reachable utc_platform merge_sort_values 120).

Lemma node2_known : "node2"%string ∈ NODES.
Proof. unfold NODES. apply elem_of_cons. right. apply elem_of_cons. by left. Defined.

Lemma world_after_sample_reachable : reachable_utc world_after_sample.
Proof.
  apply (reachable_push _ (init_world 0) "node2" (JDict sample_snapshot)).
  - apply reachable_init.
  - vm_compute. reflexivity.
Defined.

Lemma world_after_sample_frame :
  session_hist world_after_sample !! "node2"%string
  = Some [mkRow (Some 1700000000000000) (JFloat f24_5) (JInt 55) JNull JNull JNull].
Proof. vm_compute. reflexivity. Defined.


(** The calendar at the sample instant. *)
Example fields_sample :
  fields 1700000000000000 = Civil 2023 11 14 22 13 20 0.
Proof. vm_compute. reflexivity. Qed.

Example of_fields_sample :
  of_fields (Civil 2023 11 14 22 13 20 0) = 1700000000000000.
Proof. vm_compute. reflexivity. Qed.

(** [ms_to_datetime] on a host on UTC: a number of milliseconds, integer
    or not; [True], which [float] takes for 1.0; values that it cannot
    use. *)
Example ms_to_datetime_int :
  isoformat <$> @ms_to_datetime utc_platform (JInt 1700000000123)
  = Some "2023-11-14T22:13:20.123000"%string.
Proof. vm_compute. reflexivity. Qed.

Example ms_to_datetime_true :
  @ms_to_datetime utc_platform (JBool true) = Some 1000.
Proof. vm_compute. reflexivity. Qed.

Example ms_to_datetime_text :
  @ms_to_datetime utc_platform (JStr "yesterday") = None.
Proof. vm_compute. reflexivity. Qed.

Example ms_to_datetime_year_10000 :
  @ms_to_datetime utc_platform (JInt 253402300800000) = None.
Proof. vm_compute. reflexivity. Qed.

Example ms_to_datetime_huge :
  @ms_to_datetime utc_platform (JInt (10 ^ 400)) = None.
Proof. vm_compute. reflexivity. Qed.

(** The scenarios of the dispatcher: 200, 204 and 500. *)
Example send_cmd_200 :
  send_cmd "http://relay/api/cmd" (relay_returning 200 "") "node2" set_rgb_payload
  = Ret (true, "OK (200)"%string).
Proof. vm_compute. reflexivity. Qed.

Example send_cmd_204 :
  send_cmd "http://relay/api/cmd" (relay_returning 204 "") "node2" set_rgb_payload
  = Ret (true, "OK (204)"%string).
Proof. vm_compute. reflexivity. Qed.

Example send_cmd_500 :
  send_cmd "http://relay/api/cmd" (relay_returning 500 "boom") "node2" set_rgb_payload
  = Ret (false, "HTTP 500: boom"%string).
Proof. vm_compute. reflexivity. Qed.

(** An exception that is not of class [Exception] goes through. *)
Example send_cmd_interrupt :
  send_cmd "http://relay/api/cmd" (relay_raising (Exn KeyboardInterrupt ""))
           "node2" set_rgb_payload
  = Raise (Exn KeyboardInterrupt "").
Proof. reflexivity. Qed.

(** 130 appends, one snapshot per second, with the default capacity: 120
    rows remain, those of the snapshots number 10 to 129. *)
Example push_all_130 :
  exists w df,
    @push_all utc_platform merge_sort_values HISTORY_POINTS_default "node2"
      (numbered_snapshot <$> seq 0 130) (init_world 0) = Ret w /\
    session_hist w !! "node2"%string = Some df /\
    length df = 120%nat /\
    r_sound <$> df = (fun i => JInt (Z.of_nat i)) <$> seq 10 120 /\
    times df = (fun i => (1700000000 + Z.of_nat i) * 1000000) <$> seq 10 120.
Proof.
  eexists _, _. split; [vm_compute; reflexivity|].
  split; [vm_compute; reflexivity|].
  split; [|split]; vm_compute; reflexivity.
Qed.

(** Witness of C1. *)
Lemma push_history_sorted_witness :
  reachable_utc world_after_sample /\
  "node2"%string ∈ NODES /\
  exists w',
    push_utc "node2" (JDict untimed_snapshot) world_after_sample = Ret w' /\
    reachable_utc w' /\
    forall n df,
      session_hist w' !! n = Some df ->
      sorted_by_time df /\
      length (times df) = length df /\
      StronglySorted Z.le (times df).
Proof.
  split; [exact world_after_sample_reachable|].
  split; [exact node2_known|].
  exact (push_history_sorted 120 world_after_sample "node2" untimed_snapshot
           world_after_sample_reachable node2_known).
Defined.

(** Witness of C9. *)
Lemma push_history_row_survives_witness :
  exists df,
    reachable_utc world_after_sample /\
    session_hist world_after_sample !! "node2"%string = Some df /\
    Z.of_nat (length df) < 120 /\
    exists w' df',
      push_utc "node2" (JDict untimed_snapshot) world_after_sample = Ret w' /\
      session_hist w' !! "node2"%string = Some df' /\
      length df' = S (length df).
Proof.
  eexists. split; [exact world_after_sample_reachable|].
  split; [exact world_after_sample_frame|].
  split; [simpl; lia|].
  destruct (push_history_row_survives 120 world_after_sample "node2"
              untimed_snapshot _ world_after_sample_reachable
              world_after_sample_frame ltac:(simpl; lia))
    as (_ & w' & df' & Hpush & Hdf' & Hlen & _).
  exists w', df'. auto.
Defined.

(** C7 fails.  Two appends of the same snapshot leave two rows of the
    same time. *)
Lemma push_history_dedup_counterexample :
  exists w1 w2 df,
    push_utc "node2" (JDict sample_snapshot) (init_world 0) = Ret w1 /\
    push_utc "node2" (JDict sample_snapshot) w1 = Ret w2 /\
    session_hist w2 !! "node2"%string = Some df /\
    times df = [1700000000000000; 1700000000000000] /\
    ~ NoDup (times df).
Proof.
  eexists _, _, _.
  split; [vm_compute; reflexivity|].
  split; [vm_compute; reflexivity|].
  split; [vm_compute; reflexivity|].
  split; [vm_compute; reflexivity|].
  intros Hnd. apply NoDup_cons in Hnd as [Hnotin _].
  apply Hnotin. by left.
Qed.

(** Witness of C7 as the program has it. *)
Lemma push_history_no_dedup_witness :
  exists df,
    reachable_utc world_after_sample /\
    session_hist world_after_sample !! "node2"%string = Some df /\
    Z.of_nat (length df) < 120 /\
    count_time 1700000000000000 df = 1%nat /\
    exists w' df',
      push_utc "node2" (JDict sample_snapshot) world_after_sample = Ret w' /\
      session_hist w' !! "node2"%string = Some df' /\
      sorted_by_time df' /\
      count_time 1700000000000000 df' = 2%nat.
Proof.
  eexists. split; [exact world_after_sample_reachable|].
  split; [exact world_after_sample_frame|].
  split; [simpl; lia|].
  split; [reflexivity|].
  exact (push_history_no_dedup 120 world_after_sample "node2" sample_snapshot _
           world_after_sample_reachable world_after_sample_frame
           ltac:(simpl; lia)).
Defined.



(** A timestamp in a year beyond 9999 is none to read, and the row gets
    the reading of the clock. *)
Example far_future_snapshot_no_timestamp :
  @no_usable_timestamp utc_platform far_future_snapshot /\
  exists w1,
    push_utc "node2" (JDict far_future_snapshot) (init_world 0) = Ret w1 /\
    r_time <$> default [] (session_hist w1 !! "node2"%string)
    = [Some (@wall_clock utc_platform 0)] /\
    clock w1 = 1%nat.
Proof.
  split.
  - do 8 right. eexists. split.
    + right. left. eexists. split; [vm_compute; reflexivity|reflexivity].
    + vm_compute. reflexivity.
  - eexists. split; [vm_compute; reflexivity|].
    split; [vm_compute; reflexivity|reflexivity].
Qed.


(** C8 fails on a host that is not on UTC: an hour ahead of it, the row
    shows 23:13:20. *)
Lemma push_history_sample_counterexample :
  exists w' row,
    push_cet "node2" (JDict sample_snapshot) (init_world 0) = Ret w' /\
    session_hist w' !! "node2"%string = Some [row] /\
    isoformat <$> r_time row = Some "2023-11-14T23:13:20"%string /\
    isoformat <$> r_time row <> Some "2023-11-14T22:13:20"%string.
Proof.
  eexists _, _.
  split; [vm_compute; reflexivity|].
  split; [vm_compute; reflexivity|].
  split; [vm_compute; reflexivity|].
  vm_compute. discriminate.
Qed.

(** Witness of C8 as the program has it. *)
Lemma push_history_sample_witness :
  @utcoffset utc_platform 1700000000 = 0 /\
  0 <= HISTORY_POINTS_default /\
  session_hist (init_world 0) !! "node2"%string = Some [] /\
  exists w' row,
    @push_history utc_platform merge_sort_values HISTORY_POINTS_default
      "node2" (JDict sample_snapshot) (init_world 0) = Ret w' /\
    session_hist w' !! "node2"%string = Some [row] /\
    isoformat <$> r_time row = Some "2023-11-14T22:13:20"%string /\
    r_temperature row = JFloat f24_5.
Proof.
  split; [reflexivity|].
  split; [unfold HISTORY_POINTS_default; lia|].
  split; [reflexivity|].
  apply (@push_history_sample utc_platform merge_sort_values
           HISTORY_POINTS_default (init_world 0) "node2").
  - reflexivity.
  - unfold HISTORY_POINTS_default. lia.
  - reflexivity.
Defined.

(** Witness of C10. *)
Lemma live_fetch_no_data_witness :
  fb_get_last empty_store "node2" = Ret JNull /\
  exists w',
    @live_fetch utc_platform merge_sort_values 120 empty_store "node2"
      world_after_sample = Ret (JDict ∅, w') /\
    w' = world_after_sample /\
    forall n, session_hist w' !! n = session_hist world_after_sample !! n.
Proof.
  split; [reflexivity|].
  apply (@live_fetch_no_data utc_platform merge_sort_values 120 empty_store
           "node2" world_after_sample JNull).
  - reflexivity.
  - by left.
Defined.

(** Witness of C6. *)
Lemma fb_get_last_error_propagates_witness :
  unreachable_store "/iot/node2/last"
    = Raise (Exn ConnectionError "Failed to establish a new connection") /\
  fb_get_last unreachable_store "node2"
    = Raise (Exn ConnectionError "Failed to establish a new connection") /\
  fb_get_last unreachable_store "node2" <> fb_get_last empty_store "node2".
Proof.
  split; [reflexivity|].
  destruct (@fb_get_last_error_propagates utc_platform merge_sort_values 120
              unreachable_store "node2" world_after_sample
              (Exn ConnectionError "Failed to establish a new connection")
              eq_refl) as (Hraise & Hnoret & _).
  split; [exact Hraise|]. exact (Hnoret JNull).
Defined.

(** A body of 250 characters is cut to its first 200, a short one is
    shown whole. *)
Example send_cmd_long_body :
  send_cmd "http://relay/api/cmd" (relay_returning 404 long_body) "node2" set_rgb_payload
  = Ret (false, "HTTP 404: " +:+ String.concat "" (replicate 200 "x"%string)).
Proof. vm_compute. reflexivity. Qed.

(** Witness of C4. *)
Lemma send_cmd_status_witness :
  relay_returning 503 long_body "http://relay/api/cmd"
    (cmd_body "node2" set_rgb_payload) 3
    = Ret (mkResponse 503 long_body) /\
  send_cmd "http://relay/api/cmd" (relay_returning 204 "") "node2" set_rgb_payload
    = Ret (true, "OK (" +:+ pretty 204 +:+ ")") /\
  ~ (200 <= 503 < 300) /\
  exists shown,
    send_cmd "http://relay/api/cmd" (relay_returning 503 long_body)
      "node2" set_rgb_payload
      = Ret (false, "HTTP " +:+ pretty 503 +:+ ": " +:+ shown) /\
    String.prefix shown long_body = true /\
    String.length shown = 200%nat.
Proof.
  split; [reflexivity|].
  split.
  { apply (send_cmd_status "http://relay/api/cmd" (relay_returning 204 "")
             "node2" set_rgb_payload (mkResponse 204 "") eq_refl).
    simpl. lia. }
  split; [lia|].
  destruct (proj2 (send_cmd_status "http://relay/api/cmd"
                     (relay_returning 503 long_body) "node2" set_rgb_payload
                     (mkResponse 503 long_body) eq_refl))
    as (shown & Hsend & Hprefix & Hlen & _).
  { simpl. lia. }
  exists shown. split; [exact Hsend|]. split; [exact Hprefix|].
  etransitivity; [exact Hlen|]. vm_compute. reflexivity.
Defined.

(** Witness of C5. *)
Lemma send_cmd_transport_error_witness :
  relay_raising read_timed_out "http://relay/api/cmd"
    (cmd_body "node2" set_rgb_payload) 3 = Raise read_timed_out /\
  is_transport_error read_timed_out = true /\
  send_cmd "http://relay/api/cmd" (relay_raising read_timed_out)
    "node2" set_rgb_payload = Ret (false, exn_str read_timed_out).
Proof.
  split; [reflexivity|].
  split; [reflexivity|].
  apply (send_cmd_transport_error "http://relay/api/cmd"
           (relay_raising read_timed_out) "node2" set_rgb_payload
           read_timed_out eq_refl eq_refl).
Defined.

End Concrete.

(* ===================================================================== *)
(** * More on the aggregator: errors, frame, length, order of times       *)
(* ===================================================================== *)

Lemma times_app df1 df2 : times (df1 ++ df2) = times df1 ++ times df2.
Proof. apply omap_app. Qed.

Lemma times_Permutation df1 df2 :
  Permutation df1 df2 -> Permutation (times df1) (times df2).
Proof. intros Hp. unfold times. by rewrite Hp. Qed.

Lemma times_drop n df :
  Forall (fun r => notna r = true) df -> times (drop n df) = drop n (times df).
Proof.
  intros Hna. revert n. induction Hna as [|r df Hr _ IH]; intros [|n]; try done.
  simpl. unfold times in *. simpl. unfold notna in Hr.
  destruct (r_time r); [|done]. simpl. apply IH.
Qed.

(** Two sorted lists of times with the same elements are the same list. *)
Lemma sorted_times_unique (l1 l2 : list Z) :
  StronglySorted Z.le l1 -> StronglySorted Z.le l2 -> Permutation l1 l2 -> l1 = l2.
Proof.
  apply StronglySorted_unique_strong. intros x1 x2 _ _ H12 H21. lia.
Qed.

(** The times of a sorted frame do not depend on the sorting routine. *)
Lemma times_sort_values (S1 S2 : SortValues) df :
  Forall (fun r => notna r = true) df ->
  times (@sort_values S1 df) = times (@sort_values S2 df).
Proof.
  intros Hna. apply sorted_times_unique.
  - apply sorted_by_time_times. by apply @sort_values_sorted_by_time.
  - apply sorted_by_time_times. by apply @sort_values_sorted_by_time.
  - apply times_Permutation.
    by rewrite (@sort_values_Permutation S1), (@sort_values_Permutation S2).
Qed.

(** A frame that is already in order keeps its times when sorted. *)
Lemma times_sort_values_sorted `{SortValues} df :
  sorted_by_time df -> times (sort_values df) = times df.
Proof.
  intros Hs. apply sorted_times_unique.
  - apply sorted_by_time_times, sort_values_sorted_by_time. by destruct Hs.
  - by apply sorted_by_time_times.
  - apply times_Permutation, sort_values_Permutation.
Qed.

Section AggregatorMore.
Context `{Platform} `{SortValues}.
Variable HISTORY_POINTS : Z.

#[local] Abbreviation append_row := (append_row HISTORY_POINTS).
#[local] Abbreviation push_history := (push_history HISTORY_POINTS).
#[local] Abbreviation reachable := (reachable HISTORY_POINTS).

Lemma resolve_time_hist m w : session_hist (resolve_time m w).2 = session_hist w.
Proof. unfold resolve_time, datetime_now. by destruct (ms_to_datetime _). Qed.

Lemma resolve_time_clock m w :
  clock (resolve_time m w).2
  = match ms_to_datetime (dict_get m "ts") with
    | Some _ => clock w
    | None => S (clock w)
    end.
Proof. unfold resolve_time, datetime_now. by destruct (ms_to_datetime _). Qed.

(** The length of the frame after an append, for a capacity of at least
    one and a frame with a time in each row. *)
Lemma append_row_length df row :
  1 <= HISTORY_POINTS ->
  Forall (fun r => notna r = true) df -> notna row = true ->
  length (append_row df row) = Nat.min (S (length df)) (Z.to_nat HISTORY_POINTS).
Proof.
  intros Hc Hdf Hrow. unfold App.append_row.
  rewrite dropna_concat_id by done. unfold concat.
  assert (length (sort_values (df ++ [row])) = S (length df)) as Hl.
  { rewrite sort_values_length, length_app. simpl. lia. }
  rewrite Hl.
  destruct (Z.gtb_spec (Z.of_nat (S (length df))) HISTORY_POINTS); [|lia].
  unfold iloc_from, slice_from.
  destruct (Z.ltb_spec (- HISTORY_POINTS) 0); [|lia].
  rewrite length_drop, Hl. lia.
Qed.

(** The times of the frame after an append: those of the old rows and of
    the new one, sorted, less the oldest ones beyond the capacity. *)
Lemma append_row_times df row t :
  1 <= HISTORY_POINTS ->
  Forall (fun r => notna r = true) df -> r_time row = Some t ->
  times (append_row df row)
  = drop (S (length df) - Z.to_nat HISTORY_POINTS)
         (times (sort_values (df ++ [row]))).
Proof.
  intros Hc Hdf Hrow.
  assert (notna row = true) as Hna by (unfold notna; by rewrite Hrow).
  assert (Forall (fun r => notna r = true) (df ++ [row])) as Hall.
  { apply Forall_app. split; [done|]. by constructor. }
  unfold App.append_row.
  rewrite dropna_concat_id by done. unfold concat.
  assert (length (sort_values (df ++ [row])) = S (length df)) as Hl.
  { rewrite sort_values_length, length_app. simpl. lia. }
  rewrite Hl.
  destruct (Z.gtb_spec (Z.of_nat (S (length df))) HISTORY_POINTS).
  - unfold iloc_from, slice_from.
    destruct (Z.ltb_spec (- HISTORY_POINTS) 0); [|lia].
    rewrite Hl, times_drop.
    + f_equal. lia.
    + by rewrite sort_values_Permutation.
  - replace (S (length df) - Z.to_nat HISTORY_POINTS)%nat with 0%nat by lia.
    by rewrite drop_0.
Qed.

(** X1.  An append for one node leaves the frame of every other node as
    it was, keeps a frame for the node, and reads the clock at most
    once. *)
Theorem push_history_frame (node_name : string) (last : json) (w w' : World) :
  push_history node_name last w = Ret w' ->
  (forall n, n <> node_name -> session_hist w' !! n = session_hist w !! n) /\
  is_Some (session_hist w' !! node_name) /\
  (clock w <= clock w' <= S (clock w))%nat.
Proof.
  intros Hpush. unfold App.push_history in Hpush.
  destruct (session_hist w !! node_name) as [df|] eqn:Hdf; [|done].
  destruct last; try done.
  destruct (resolve_time m w) as [t w1] eqn:Hres.
  pose proof (resolve_time_hist m w) as Hh. pose proof (resolve_time_clock m w) as Hc.
  rewrite Hres in Hh, Hc. simpl in Hh, Hc.
  injection Hpush as <-. simpl. rewrite Hh. split; [|split].
  - intros n Hn. by rewrite lookup_insert_ne.
  - rewrite lookup_insert_eq. by eexists.
  - rewrite Hc. destruct (ms_to_datetime _); lia.
Qed.

(** X2.  An append returns exactly when the session holds a frame for the
    node and the snapshot is a dict.  Otherwise it raises: [KeyError]
    when the node has no frame, whatever the snapshot is, and
    [AttributeError] when the node has one and the snapshot is not a
    dict. *)
Theorem push_history_outcome (node_name : string) (last : json) (w : World) :
  ((exists w', push_history node_name last w = Ret w') <->
   is_Some (session_hist w !! node_name) /\ exists m, last = JDict m) /\
  (forall e, push_history node_name last w = Raise e ->
     exn_type e = match session_hist w !! node_name with
                  | None => KeyError
                  | Some _ => AttributeError
                  end).
Proof.
  unfold App.push_history.
  destruct (session_hist w !! node_name) as [df|] eqn:Hdf.
  - destruct last; (split; [split|]);
      try (intros [w' Hw']; discriminate Hw');
      try (intros [_ [m' Hm']]; discriminate Hm');
      try (intros e [= <-]; reflexivity).
    + intros _. split; [by eexists | by eexists].
    + intros _. destruct (resolve_time m w). by eexists.
    + intros e He. destruct (resolve_time m w). discriminate He.
  - split; [split|].
    + intros [w' Hw']. discriminate Hw'.
    + intros [[df Hdf'] _]. discriminate Hdf'.
    + intros e [= <-]. reflexivity.
Qed.

(** X3.  When [ms_to_datetime] can use the snapshot's timestamp, the
    append takes the time of the row from it and does not read the clock:
    the frame after the call is the old frame with a row of that time
    appended, and below capacity that row is in it. *)
Theorem push_history_snapshot_time (node_name : string) (m : gmap string json)
    (w : World) (df : DataFrame) (t : datetime) :
  reachable w ->
  session_hist w !! node_name = Some df ->
  ms_to_datetime (dict_get m "ts") = Some t ->
  exists w',
    push_history node_name (JDict m) w = Ret w' /\
    clock w' = clock w /\
    session_hist w' !! node_name = Some (append_row df (make_row t m)) /\
    (Z.of_nat (length df) < HISTORY_POINTS ->
     make_row t m ∈ append_row df (make_row t m) /\
     count_time t (append_row df (make_row t m)) = S (count_time t df)).
Proof.
  intros Hw Hdf Hts.
  destruct (reachable_sorted _ w Hw node_name df Hdf) as [Hna _].
  assert (resolve_time m w = (t, w)) as Hres.
  { unfold resolve_time. by rewrite Hts. }
  eexists. split; [by apply push_history_dict|].
  rewrite Hres. simpl. split; [done|].
  split; [by rewrite lookup_insert_eq|].
  intros Hlen.
  pose proof (append_row_below HISTORY_POINTS df (make_row t m) Hna eq_refl Hlen) as Hp.
  split.
  - rewrite Hp. apply elem_of_app. right. by apply list_elem_of_singleton.
  - rewrite (count_time_Permutation _ _ _ Hp). by apply count_time_snoc.
Qed.

(** X4.  For a capacity [C] of at least one, an append to a frame of [n]
    rows in a reachable world leaves [min (n + 1) C] rows. *)
Theorem push_history_length (node_name : string) (m : gmap string json)
    (w : World) (df : DataFrame) :
  1 <= HISTORY_POINTS ->
  reachable w ->
  session_hist w !! node_name = Some df ->
  exists w' df',
    push_history node_name (JDict m) w = Ret w' /\
    session_hist w' !! node_name = Some df' /\
    length df' = Nat.min (S (length df)) (Z.to_nat HISTORY_POINTS).
Proof.
  intros Hc Hw Hdf.
  destruct (reachable_sorted _ w Hw node_name df Hdf) as [Hna _].
  eexists _, _. split; [by apply push_history_dict|].
  split; [simpl; by rewrite lookup_insert_eq|].
  by apply append_row_length.
Qed.

End AggregatorMore.

Section AggregatorOrder.
Context `{Platform} `{SortValues}.
Variable HISTORY_POINTS : Z.

#[local] Abbreviation append_row := (append_row HISTORY_POINTS).
#[local] Abbreviation append_rows := (append_rows HISTORY_POINTS).
#[local] Abbreviation push_history := (push_history HISTORY_POINTS).
#[local] Abbreviation push_all := (push_all HISTORY_POINTS).
#[local] Abbreviation reachable := (reachable HISTORY_POINTS).
#[local] Abbreviation appended := (appended HISTORY_POINTS).

(** The time an append resolves depends on the clock of the world only. *)
Lemma resolve_time_same_clock m w1 w2 :
  clock w1 = clock w2 ->
  (resolve_time m w1).1 = (resolve_time m w2).1 /\
  clock (resolve_time m w1).2 = clock (resolve_time m w2).2.
Proof.
  intros Hc. unfold resolve_time, datetime_now.
  destruct (ms_to_datetime _); simpl; by rewrite ?Hc.
Qed.

Lemma rows_made_same_clock snapshots w1 w2 :
  clock w1 = clock w2 -> rows_made snapshots w1 = rows_made snapshots w2.
Proof.
  revert w1 w2. induction snapshots as [|m rest IH]; intros w1 w2 Hc; [done|].
  simpl. destruct (resolve_time_same_clock m w1 w2 Hc) as [-> Hc'].
  f_equal. by apply IH.
Qed.

Lemma rows_made_length snapshots w : length (rows_made snapshots w) = length snapshots.
Proof.
  revert w. induction snapshots as [|m rest IH]; intros w; [done|].
  simpl. by rewrite IH.
Qed.

Lemma push_all_cons node m rest w w1 :
  push_history node (JDict m) w = Ret w1 ->
  push_all node (m :: rest) w = push_all node rest w1.
Proof. intros Hpush. unfold App.push_all. simpl. by rewrite Hpush. Qed.

(** A sequence of appends for a known node returns, and the rows it
    appends are those of [rows_made]. *)
Lemma push_all_appended node snapshots w rows :
  node ∈ NODES ->
  appended node w rows ->
  exists w',
    push_all node snapshots w = Ret w' /\
    appended node w' (rows ++ rows_made snapshots w).
Proof.
  intros Hn. revert w rows.
  induction snapshots as [|m rest IH]; intros w rows Happ.
  - exists w. split; [done|]. simpl. by rewrite app_nil_r.
  - destruct (appended_frame HISTORY_POINTS node w rows Happ Hn) as [Hdf _].
    pose proof (push_history_dict HISTORY_POINTS node m w _ Hdf) as Hpush.
    rewrite (push_all_cons node m rest w _ Hpush).
    pose proof (appended_here HISTORY_POINTS node w rows m _ Happ Hpush) as Happ'.
    destruct (IH _ _ Happ') as (w' & Hall & Hrows).
    exists w'. split; [exact Hall|].
    rewrite <- (assoc (++)) in Hrows. simpl in Hrows. simpl.
    erewrite rows_made_same_clock; [exact Hrows | done].
Qed.

(** X6.  For a capacity [C] of at least one, a sequence of [n] appends
    for a known node, from the initial world, returns and leaves a frame
    of [min n C] rows, sorted by time, that holds the most recent of the
    rows made: the rows left out are none more recent than a row kept. *)
Theorem push_all_most_recent (node : string) (snapshots : list (gmap string json))
    (k : nat) :
  1 <= HISTORY_POINTS ->
  node ∈ NODES ->
  exists w df,
    push_all node snapshots (init_world k) = Ret w /\
    session_hist w !! node = Some df /\
    length df = Nat.min (length snapshots) (Z.to_nat HISTORY_POINTS) /\
    most_recent (Z.to_nat HISTORY_POINTS) (rows_made snapshots (init_world k)) df.
Proof.
  intros Hc Hn.
  destruct (push_all_appended node snapshots (init_world k) [] Hn
              (appended_init HISTORY_POINTS node k)) as (w & Hall & Happ).
  simpl in Happ.
  destruct (push_history_most_recent HISTORY_POINTS node w _ Hc Hn Happ)
    as (df & Hdf & _ & Hmr).
  exists w, df. split; [done|]. split; [done|]. split; [|done].
  destruct Hmr as (_ & Hlen & _). by rewrite rows_made_length in Hlen.
Qed.

(** X7.  Snapshots that arrive in the order of their times make a sliding
    window.  For a capacity of at least one, when no row of the frame is
    later than the time [t] of the new row, the times after the append
    are the old ones followed by [t], less the oldest one when the frame
    was full. *)
Theorem push_history_in_order (node_name : string) (m : gmap string json)
    (w : World) (df : DataFrame) :
  1 <= HISTORY_POINTS ->
  reachable w ->
  session_hist w !! node_name = Some df ->
  Forall (fun a => a <= (resolve_time m w).1) (times df) ->
  exists w' df',
    push_history node_name (JDict m) w = Ret w' /\
    session_hist w' !! node_name = Some df' /\
    times df' = drop (S (length df) - Z.to_nat HISTORY_POINTS)
                     (times df ++ [(resolve_time m w).1]).
Proof.
  intros Hc Hw Hdf Hle.
  destruct (reachable_sorted _ w Hw node_name df Hdf) as [Hna Hs].
  set (t := (resolve_time m w).1) in *.
  eexists _, _. split; [by apply push_history_dict|].
  split; [simpl; by rewrite lookup_insert_eq|].
  fold t. rewrite (append_row_times HISTORY_POINTS df (make_row t m) t Hc Hna eq_refl).
  f_equal. rewrite times_sort_values_sorted; [by rewrite times_app|].
  split.
  - apply Forall_app. split; [done|]. by constructor.
  - apply StronglySorted_app_2; [|done|repeat constructor].
    intros r1 r2 Hr1 Hr2. apply list_elem_of_singleton in Hr2 as ->.
    rewrite Forall_forall in Hna. specialize (Hna r1 Hr1).
    unfold notna in Hna. unfold time_le. simpl.
    destruct (r_time r1) as [a|] eqn:Ha; [|done].
    rewrite Forall_forall in Hle. apply Hle.
    apply list_elem_of_omap. by exists r1.
Qed.

(** X8.  A row that comes too late is not kept.  For a capacity of at
    least one, when the frame is full and the time [t] of the new row is
    earlier than the time of every row of the frame, the append leaves
    the rows and the times of the frame as they were, and the new row is
    not among them. *)
Theorem push_history_late_row (node_name : string) (m : gmap string json)
    (w : World) (df : DataFrame) :
  1 <= HISTORY_POINTS ->
  reachable w ->
  session_hist w !! node_name = Some df ->
  Z.of_nat (length df) = HISTORY_POINTS ->
  Forall (fun a => (resolve_time m w).1 < a) (times df) ->
  exists w' df',
    push_history node_name (JDict m) w = Ret w' /\
    session_hist w' !! node_name = Some df' /\
    Permutation df' df /\
    times df' = times df /\
    make_row (resolve_time m w).1 m ∉ df'.
Proof.
  intros Hc Hw Hdf Hfull Hlt.
  pose proof (reachable_sorted _ w Hw node_name df Hdf) as Hsorted.
  destruct Hsorted as [Hna Hs].
  set (t := (resolve_time m w).1) in *. set (row := make_row t m).
  assert (forall r, r ∈ df -> exists a, r_time r = Some a /\ t < a) as Hlater.
  { intros r Hr. rewrite Forall_forall in Hna. specialize (Hna r Hr).
    unfold notna in Hna. destruct (r_time r) as [a|] eqn:Ha; [|done].
    exists a. split; [done|]. rewrite Forall_forall in Hlt. apply Hlt.
    apply list_elem_of_omap. by exists r. }
  assert (row ∉ df) as Hnotin.
  { intros Hin. destruct (Hlater row Hin) as (a & Ha & Hta).
    simpl in Ha. injection Ha as <-. lia. }
  eexists _, (append_row df row).
  split; [by apply push_history_dict|].
  split; [simpl; by rewrite lookup_insert_eq|].
  rewrite (append_row_full HISTORY_POINTS df row Hc Hna eq_refl) by lia.
  replace (S (length df) - Z.to_nat HISTORY_POINTS)%nat with 1%nat by lia.
  pose proof (sort_values_Permutation (df ++ [row])) as Hp.
  pose proof (sort_values_sorted_by_time (df ++ [row])) as [HnaS HsS].
  { apply Forall_app. split; [done|]. by constructor. }
  destruct (sort_values (df ++ [row])) as [|a B] eqn:HS.
  { apply Permutation_length in Hp. rewrite length_app in Hp. simpl in Hp. lia. }
  simpl. rewrite drop_0.
  apply StronglySorted_cons in HsS as [Ha HsB].
  apply Forall_cons in HnaS as [_ HnaB].
  assert (a = row) as ->.
  { assert (a ∈ df ++ [row]) as Ha' by (rewrite <- Hp; by left).
    apply elem_of_app in Ha' as [Ha'|Ha']; [|by apply list_elem_of_singleton in Ha'].
    exfalso. destruct (Hlater a Ha') as (ta & Hta & Hlta).
    assert (row ∈ a :: B) as Hrow.
    { rewrite Hp. apply elem_of_app. right. by apply list_elem_of_singleton. }
    apply elem_of_cons in Hrow as [Heq|Hrow].
    - subst a. simpl in Hta. injection Hta as <-. lia.
    - rewrite Forall_forall in Ha. specialize (Ha row Hrow).
      unfold time_le in Ha. rewrite Hta in Ha. simpl in Ha. lia. }
  assert (Permutation B df) as HB.
  { apply (Permutation_cons_inv (a := row)).
    rewrite Hp. symmetry. apply Permutation_cons_append. }
  split; [done|]. split.
  - apply sorted_times_unique.
    + by apply sorted_by_time_times.
    + by apply sorted_by_time_times.
    + by apply times_Permutation.
  - by rewrite HB.
Qed.

(** X10.  With a negative capacity the trim empties the frame at every
    append: in every reachable world every frame is empty. *)
Theorem negative_capacity_empty (w : World) (n : string) (df : DataFrame) :
  HISTORY_POINTS < 0 ->
  reachable w ->
  session_hist w !! n = Some df ->
  df = [].
Proof.
  intros Hneg Hw. revert n df.
  induction Hw as [k|w node_name last w' Hw IH Hpush]; intros n df.
  - simpl. rewrite init_hist_lookup. case_bool_decide; [|done]. by intros [= <-].
  - unfold App.push_history in Hpush.
    destruct (session_hist w !! node_name) as [df0|] eqn:Hdf; [|done].
    destruct last; try done.
    destruct (resolve_time m w) as [t w1] eqn:Hres.
    pose proof (resolve_time_hist m w) as Hsame.
    rewrite Hres in Hsame. simpl in Hsame.
    injection Hpush as <-; simpl. rewrite Hsame.
    destruct (decide (node_name = n)) as [->|Hne].
    + rewrite lookup_insert_eq. intros [= <-].
      rewrite (IH n df0 Hdf). unfold App.append_row.
      change (dropna (concat [] [make_row t m])) with [make_row t m].
      rewrite sort_values_singleton. simpl length.
      destruct (Z.gtb_spec (Z.of_nat 1) HISTORY_POINTS); [|lia].
      unfold iloc_from, slice_from.
      destruct (Z.ltb_spec (- HISTORY_POINTS) 0); [lia|].
      apply drop_ge. simpl. lia.
    + rewrite lookup_insert_ne by done. apply IH.
Qed.

Lemma append_rows_notna rows : Forall (fun r => notna r = true) (append_rows rows).
Proof.
  induction rows as [|row rows _] using rev_ind; [constructor|].
  rewrite (append_rows_snoc HISTORY_POINTS).
  by destruct (append_row_sorted HISTORY_POINTS (append_rows rows) row).
Qed.

(** X11.  With a capacity of zero nothing is ever evicted: the frame of a
    known node holds every row appended for it, so it has as many rows as
    there were appends. *)
Theorem zero_capacity_keeps_all (node : string) (w : World) (rows : list Row) :
  HISTORY_POINTS = 0 ->
  node ∈ NODES ->
  appended node w rows ->
  exists df,
    session_hist w !! node = Some df /\
    Permutation df rows /\
    length df = length rows.
Proof.
  intros Hzero Hn Happ.
  destruct (appended_frame HISTORY_POINTS node w rows Happ Hn) as [Hdf Hrows].
  exists (append_rows rows). split; [done|].
  assert (Permutation (append_rows rows) rows) as Hp.
  { clear Hdf Happ. induction rows as [|row rows IH] using rev_ind; [done|].
    apply Forall_app in Hrows as [Hrows Hrow].
    rewrite (append_rows_snoc HISTORY_POINTS).
    rewrite (append_row_capacity_zero HISTORY_POINTS _ row Hzero
               (append_rows_notna rows)) by (by inversion Hrow).
    by rewrite IH. }
  split; [done|]. by rewrite Hp.
Qed.

End AggregatorOrder.

(** X9.  The times of the frames after an append do not depend on how the
    sorting routine orders rows of equal time: with any two routines, the
    append returns in the same cases, reads the clock alike, and leaves
    frames with the same list of times for every node. *)
Theorem push_history_times_any_sort `{Platform} (S1 S2 : SortValues)
    (HISTORY_POINTS : Z) (node_name : string) (last : json) (w w1 : World) :
  @push_history _ S1 HISTORY_POINTS node_name last w = Ret w1 ->
  exists w2,
    @push_history _ S2 HISTORY_POINTS node_name last w = Ret w2 /\
    clock w2 = clock w1 /\
    forall n, times <$> (session_hist w1 !! n) = times <$> (session_hist w2 !! n).
Proof.
  intros Hpush. unfold App.push_history in *.
  destruct (session_hist w !! node_name) as [df|] eqn:Hdf; [|done].
  destruct last; try done.
  destruct (resolve_time m w) as [t w0] eqn:Hres.
  injection Hpush as <-. eexists. split; [done|]. simpl. split; [done|].
  intros n. destruct (decide (node_name = n)) as [->|Hne].
  - rewrite !lookup_insert_eq. simpl. f_equal.
    unfold App.append_row.
    pose proof (dropna_notna (concat df [make_row t m])) as Hna.
    set (l := dropna (concat df [make_row t m])) in *.
    rewrite (@sort_values_length S1), (@sort_values_length S2).
    destruct (_ >? _); [|by apply times_sort_values].
    unfold iloc_from, slice_from.
    rewrite (@sort_values_length S1), (@sort_values_length S2).
    destruct (_ <? _).
    + rewrite !times_drop by (by rewrite sort_values_Permutation).
      f_equal. by apply times_sort_values.
    + rewrite !times_drop by (by rewrite sort_values_Permutation).
      f_equal. by apply times_sort_values.
  - by rewrite !lookup_insert_ne.
Qed.

(* ===================================================================== *)
(** * The live fetch, the refresh loop and the charts                     *)
(* ===================================================================== *)

Section LoopFacts.
Context `{Platform} `{SortValues}.
Variable HISTORY_POINTS : Z.

#[local] Abbreviation append_row := (append_row HISTORY_POINTS).
#[local] Abbreviation push_history := (push_history HISTORY_POINTS).
#[local] Abbreviation reachable := (reachable HISTORY_POINTS).
#[local] Abbreviation live_fetch := (live_fetch HISTORY_POINTS).
#[local] Abbreviation auto_refresh := (auto_refresh HISTORY_POINTS).

(** What a returning append was given and what it did. *)
Lemma push_history_inv node_name last w w' :
  push_history node_name last w = Ret w' ->
  exists m df,
    last = JDict m /\
    session_hist w !! node_name = Some df /\
    session_hist w'
      = <[node_name := append_row df (make_row (resolve_time m w).1 m)]>
          (session_hist w) /\
    clock w' = clock (resolve_time m w).2.
Proof.
  intros Hpush. unfold App.push_history in Hpush.
  destruct (session_hist w !! node_name) as [df|] eqn:Hdf; [|done].
  destruct last; try done. exists m, df.
  pose proof (resolve_time_hist m w) as Hh.
  destruct (resolve_time m w) as [t w1]. simpl in *.
  injection Hpush as <-. simpl. by rewrite Hh.
Qed.

Lemma truthy_dict m : m <> ∅ -> truthy (JDict m) = true.
Proof. intros Hm. simpl. by rewrite bool_decide_eq_false_2. Qed.

(** A live fetch that returns leads from a reachable world to a reachable
    world. *)
Lemma live_fetch_reachable db_get node w last w' :
  reachable w -> live_fetch db_get node w = Ret (last, w') -> reachable w'.
Proof.
  intros Hw. unfold App.live_fetch.
  destruct (fb_get_last db_get node) as [v|e]; [|done]. simpl.
  destruct (truthy (if truthy v then v else JDict ∅)).
  - destruct (push_history node _ w) as [w1|e] eqn:Hpush; [|done].
    simpl. intros [= _ <-]. by eapply reachable_push.
  - by intros [= _ <-].
Qed.

(** The length of a frame of a reachable world, for a capacity of at
    least one. *)
Lemma reachable_length w n df :
  1 <= HISTORY_POINTS -> reachable w -> session_hist w !! n = Some df ->
  Z.of_nat (length df) <= HISTORY_POINTS.
Proof.
  intros Hc Hw Hdf.
  assert (n ∈ NODES) as Hn
    by (apply (proj1 (reachable_nodes _ w Hw n)); by exists df).
  destruct (reachable_appended HISTORY_POINTS w n Hw) as [rows Hrows].
  destruct (push_history_most_recent HISTORY_POINTS n w rows Hc Hn Hrows)
    as (df' & Hdf' & Hlen & _).
  congruence.
Qed.

Section Fetch.
Variable db_get : string -> outcome json.

(** X13.  A fetched value that is not a dict: when it is true (a list or
    a string that is not empty, a number other than zero, [True]), the
    live fetch for a node that has a frame raises [AttributeError]; when
    it is false, the live fetch takes it for no data and leaves the world
    as it was. *)
Theorem live_fetch_not_a_dict (node : string) (w : World) (v : json) :
  is_Some (session_hist w !! node) ->
  fb_get_last db_get node = Ret v ->
  (forall m, v <> JDict m) ->
  if truthy v
  then exists e, live_fetch db_get node w = Raise e /\ exn_type e = AttributeError
  else live_fetch db_get node w = Ret (JDict ∅, w).
Proof.
  intros [df Hdf] Hget Hnd.
  destruct (truthy v) eqn:Hv.
  - unfold App.live_fetch. rewrite Hget. simpl. rewrite Hv, Hv.
    unfold App.push_history. rewrite Hdf.
    destruct v; try (eexists; split; [reflexivity|reflexivity]).
    by destruct (Hnd m).
  - by apply (live_fetch_falsy HISTORY_POINTS db_get node w v).
Qed.

(** A fetched dict that is not empty goes to [push_history]. *)
Lemma live_fetch_dict node w m :
  fb_get_last db_get node = Ret (JDict m) -> m <> ∅ ->
  live_fetch db_get node w
  = bind (push_history node (JDict m) w) (fun w' => Ret (JDict m, w')).
Proof.
  intros Hget Hm. unfold App.live_fetch. rewrite Hget. cbn [bind].
  by rewrite !(truthy_dict m Hm).
Qed.

(** X14.  Polling does not wait for new data.  While the store holds the
    same snapshot, not empty and with a timestamp [t] that
    [ms_to_datetime] can use, each run appends it again: after [k] runs
    that fit in the capacity, the frame has [k] more rows, all of time
    [t]. *)
Theorem auto_refresh_unchanged_snapshot (node : string) (m : gmap string json)
    (t : datetime) (k : nat) (w : World) (df : DataFrame) :
  reachable w ->
  session_hist w !! node = Some df ->
  fb_get_last db_get node = Ret (JDict m) ->
  m <> ∅ ->
  ms_to_datetime (dict_get m "ts") = Some t ->
  Z.of_nat (length df + k) <= HISTORY_POINTS ->
  exists w' df',
    auto_refresh (replicate k (node, db_get)) w = Ret w' /\
    session_hist w' !! node = Some df' /\
    length df' = (length df + k)%nat /\
    count_time t df' = (count_time t df + k)%nat.
Proof.
  intros Hw Hdf Hget Hm Hts. revert w df Hw Hdf.
  induction k as [|k IH]; intros w df Hw Hdf Hlen.
  - exists w, df. simpl. split; [done|]. split; [done|]. split; lia.
  - destruct (reachable_sorted _ w Hw node df Hdf) as [Hna _].
    assert (resolve_time m w = (t, w)) as Hres
      by (unfold resolve_time; by rewrite Hts).
    pose proof (push_history_dict HISTORY_POINTS node m w df Hdf) as Hpush.
    rewrite Hres in Hpush. simpl in Hpush.
    assert (Permutation (append_row df (make_row t m)) (df ++ [make_row t m])) as Hp
      by (apply append_row_below; [done|done|lia]).
    set (w1 := {| session_hist := <[node:=append_row df (make_row t m)]> (session_hist w);
                  clock := clock w |}) in *.
    assert (reachable w1) as Hw1 by (by eapply reachable_push).
    destruct (IH w1 (append_row df (make_row t m)) Hw1) as (w' & df' & Hrun & Hdf' & Hl & Hc).
    { subst w1. simpl. by rewrite lookup_insert_eq. }
    { rewrite (Permutation_length Hp), length_app. simpl. lia. }
    exists w', df'. split.
    { cbn [replicate Script.auto_refresh].
      rewrite (live_fetch_dict node w m Hget Hm), Hpush. exact Hrun. }
    split; [done|].
    rewrite (Permutation_length Hp), length_app in Hl.
    rewrite (count_time_Permutation _ _ _ Hp),
      (count_time_snoc t df (make_row t m) eq_refl) in Hc.
    simpl in Hl. split; lia.
Qed.

End Fetch.

(** X15.  Whatever the store returns at each run, a chain of runs that
    returns leaves a reachable world: the session holds frames for the
    known nodes only, every frame has a time in each row and is sorted by
    time, and for a capacity of at least one no frame is longer than the
    capacity. *)
Theorem auto_refresh_invariant (runs : list (string * (string -> outcome json)))
    (w w' : World) :
  reachable w ->
  auto_refresh runs w = Ret w' ->
  reachable w' /\
  forall n df,
    session_hist w' !! n = Some df ->
    n ∈ NODES /\
    sorted_by_time df /\
    (1 <= HISTORY_POINTS -> Z.of_nat (length df) <= HISTORY_POINTS).
Proof.
  revert w. induction runs as [|[node db_get] rest IH]; intros w Hw Hrun.
  - injection Hrun as <-. split; [done|]. intros n df Hdf. split; [|split].
    + apply (proj1 (reachable_nodes _ w Hw n)). by exists df.
    + by apply (reachable_sorted _ w Hw n).
    + intros Hc. by apply (reachable_length w n).
  - simpl in Hrun.
    destruct (live_fetch db_get node w) as [[last w1]|e] eqn:Hfetch; [|done].
    simpl in Hrun. apply (IH w1); [|done].
    by apply (live_fetch_reachable db_get node w last w1).
Qed.

(** X16.  With a capacity of one the charts are never drawn: in every
    reachable world the frame of a known node has fewer than two rows. *)
Theorem charts_never_with_capacity_one (node : string) (w : World) :
  HISTORY_POINTS = 1 ->
  reachable w ->
  node ∈ NODES ->
  charts_drawn node w = Ret false.
Proof.
  intros Hone Hw Hn.
  destruct (proj2 (reachable_nodes _ w Hw node) Hn) as [df Hdf].
  unfold charts_drawn. rewrite Hdf. f_equal.
  pose proof (reachable_length w node df ltac:(lia) Hw Hdf).
  apply Z.leb_gt. lia.
Qed.

(** X17.  For a capacity of at least two, charts that are drawn stay
    drawn: when the frame of a node has two rows or more in a reachable
    world, it still has after an append for any node. *)
Theorem charts_stay_drawn (node node_name : string) (last : json) (w w' : World) :
  2 <= HISTORY_POINTS ->
  reachable w ->
  charts_drawn node w = Ret true ->
  push_history node_name last w = Ret w' ->
  charts_drawn node w' = Ret true.
Proof.
  intros Hc Hw Hdrawn Hpush. unfold charts_drawn in *.
  destruct (session_hist w !! node) as [df|] eqn:Hdf; [|done].
  injection Hdrawn as Hlen. apply Z.leb_le in Hlen.
  destruct (push_history_inv node_name last w w' Hpush) as (m & df0 & -> & Hdf0 & -> & _).
  destruct (decide (node_name = node)) as [->|Hne].
  - rewrite lookup_insert_eq. f_equal. apply Z.leb_le.
    assert (df0 = df) as -> by congruence.
    destruct (reachable_sorted _ w Hw node df Hdf) as [Hna _].
    rewrite (append_row_length HISTORY_POINTS df
               (make_row (resolve_time m w).1 m) ltac:(lia) Hna eq_refl). lia.
  - rewrite lookup_insert_ne by done. rewrite Hdf. f_equal. by apply Z.leb_le.
Qed.

End LoopFacts.

(* ===================================================================== *)
(** * More on the dispatcher and on the start-up                          *)
(* ===================================================================== *)

Section DispatcherMore.
Variable NODERED_CMD_URL : string.
Variable requests_post : string -> json -> Z -> outcome Response.

#[local] Abbreviation send_cmd := (send_cmd NODERED_CMD_URL requests_post).

(** X18.  [send_cmd] reports success exactly when the request returned a
    response with a status from 200 to 299. *)
Theorem send_cmd_success_iff (node : string) (payload : json) :
  (exists msg, send_cmd node payload = Ret (true, msg)) <->
  (exists r, requests_post NODERED_CMD_URL (cmd_body node payload) 3 = Ret r /\
             200 <= status_code r < 300).
Proof.
  unfold App.send_cmd.
  destruct (requests_post _ _ _) as [r|e]; split.
  - intros [msg Hmsg]. exists r. split; [done|].
    destruct (Z.leb_spec 200 (status_code r)); [|done].
    destruct (Z.ltb_spec (status_code r) 300); [lia|done].
  - intros (r' & [= <-] & Hlo & Hhi).
    destruct (Z.leb_spec 200 (status_code r)); [|lia].
    destruct (Z.ltb_spec (status_code r) 300); [|lia]. by eexists.
  - intros [msg Hmsg]. by destruct (is_Exception e).
  - by intros (r & Hr & _).
Qed.

(** X19.  [send_cmd] raises exactly when the request raises an exception
    that does not derive from [Exception], such as [KeyboardInterrupt] or
    [SystemExit], and it raises that exception. *)
Theorem send_cmd_raises_iff (node : string) (payload : json) (e : exn) :
  send_cmd node payload = Raise e <->
  requests_post NODERED_CMD_URL (cmd_body node payload) 3 = Raise e /\
  is_Exception e = false.
Proof.
  unfold App.send_cmd.
  destruct (requests_post _ _ _) as [r|e0]; split.
  - by destruct (_ && _).
  - by intros [Hr _].
  - destruct (is_Exception e0) eqn:He0; [done|]. by intros [= <-].
  - intros [[= <-] He]. by rewrite He.
Qed.

End DispatcherMore.

Section FirebaseFacts.
Variable FIREBASE_DB_URL : string.
Variable FIREBASE_SERVICE_ACCOUNT : string.
Variable Certificate : string -> outcome json.

#[local] Abbreviation init_firebase :=
  (init_firebase FIREBASE_DB_URL FIREBASE_SERVICE_ACCOUNT Certificate).

(** X20.  [init_firebase] initialises once.  When it returns, it returns
    [True] and a registry that is not empty: the registry it was given
    when that one had an app, else the registry with the default app
    alone, made of the loaded credential and the database URL.  A later
    call on that registry returns [True], changes nothing and does not
    load the key file, whatever has become of it. *)
Theorem init_firebase_idempotent (apps apps' : gmap string FirebaseApp) (b : bool) :
  init_firebase apps = Ret (b, apps') ->
  b = true /\
  apps' <> ∅ /\
  (apps <> ∅ /\ apps' = apps \/
   apps = ∅ /\
   exists cred,
     Certificate FIREBASE_SERVICE_ACCOUNT = Ret cred /\
     apps' = {[ DEFAULT_APP_NAME :=
                  mkFirebaseApp cred (<["databaseURL" := JStr FIREBASE_DB_URL]> ∅) ]}) /\
  forall url path certificate,
    Script.init_firebase url path certificate apps' = Ret (true, apps').
Proof.
  unfold Script.init_firebase. case_bool_decide as Hempty.
  - subst apps. destruct (Certificate FIREBASE_SERVICE_ACCOUNT) as [cred|e]; [|done].
    simpl. unfold initialize_app. rewrite lookup_empty. simpl.
    intros [= <- <-].
    assert (<[DEFAULT_APP_NAME:=mkFirebaseApp cred
                (<["databaseURL":=JStr FIREBASE_DB_URL]> ∅)]> (∅ : gmap string FirebaseApp) <> ∅)
      as Hne by apply insert_non_empty.
    split; [done|]. split; [done|]. split.
    + right. split; [done|]. by exists cred.
    + intros url path certificate. by rewrite bool_decide_eq_false_2.
  - intros [= <- <-]. split; [done|]. split; [done|]. split.
    + by left.
    + intros url path certificate. by rewrite bool_decide_eq_false_2.
Qed.

(** X21.  [init_firebase] raises only when the registry is empty and the
    key file cannot be loaded, and then it raises what the loader raised:
    the guard keeps [initialize_app] from its [ValueError] for a second
    default app. *)
Theorem init_firebase_raises (apps : gmap string FirebaseApp) (e : exn) :
  init_firebase apps = Raise e ->
  apps = ∅ /\ Certificate FIREBASE_SERVICE_ACCOUNT = Raise e.
Proof.
  unfold Script.init_firebase. case_bool_decide as Hempty; [|done].
  subst apps. destruct (Certificate FIREBASE_SERVICE_ACCOUNT) as [cred|e0].
  - simpl. unfold initialize_app. by rewrite lookup_empty.
  - simpl. by intros [= <-].
Qed.

End FirebaseFacts.

(* ===================================================================== *)
(** * The further properties on concrete inputs                           *)
(* ===================================================================== *)

Section ConcreteMore.

#[local] Existing Instance utc_platform.
#[local] Existing Instance merge_sort_values.

#[local] Abbreviation push_at := (@push_history utc_platform merge_sort_values).
#[local] Abbreviation reachable_at := (@reachable utc_platform merge_sort_values).

(** The two sorting routines differ on rows of equal time. *)
Example sort_values_ties :
  r_sound <$> @sort_values merge_sort_values
                (mkRow (Some 5) JNull JNull JNull (JInt 1) JNull
                 :: [mkRow (Some 5) JNull JNull JNull (JInt 2) JNull])
  = [JInt 1; JInt 2] /\
  r_sound <$> @sort_values reversing_sort_values
                (mkRow (Some 5) JNull JNull JNull (JInt 1) JNull
                 :: [mkRow (Some 5) JNull JNull JNull (JInt 2) JNull])
  = [JInt 2; JInt 1].
Proof. split; vm_compute; reflexivity. Qed.

Lemma sample_snapshot_not_empty : sample_snapshot <> ∅.
Proof.
  intros Heq. apply (f_equal (fun m => m !! "ts"%string)) in Heq.
  vm_compute in Heq. discriminate Heq.
Defined.

Lemma world_two_rows_reachable : reachable_at 2 world_two_rows.
Proof.
  apply (reachable_push _ (mkWorld (<["node2"%string :=
           [mkRow (Some 1700000000000000) JNull JNull JNull (JInt 0) JNull]]> init_hist) 0)
           "node2" (JDict (numbered_snapshot 1))).
  - apply (reachable_push _ (init_world 0) "node2" (JDict (numbered_snapshot 0))).
    + apply reachable_init.
    + vm_compute. reflexivity.
  - vm_compute. reflexivity.
Defined.

Lemma world_two_rows_frame :
  session_hist world_two_rows !! "node2"%string = Some two_rows.
Proof. vm_compute. reflexivity. Defined.

(** Witness of X1. *)
Lemma push_history_frame_witness :
  push_at 120 "node2" (JDict sample_snapshot) (init_world 0) = Ret world_after_sample /\
  (forall n, n <> "node2"%string ->
     session_hist world_after_sample !! n = session_hist (init_world 0) !! n) /\
  is_Some (session_hist world_after_sample !! "node2"%string) /\
  (clock (init_world 0) <= clock world_after_sample <= S (clock (init_world 0)))%nat.
Proof.
  assert (push_at 120 "node2" (JDict sample_snapshot) (init_world 0)
          = Ret world_after_sample) as Hpush by (vm_compute; reflexivity).
  split; [exact Hpush|].
  exact (push_history_frame 120 "node2" (JDict sample_snapshot) (init_world 0)
           world_after_sample Hpush).
Defined.

(** Witness of X3. *)
Lemma push_history_snapshot_time_witness :
  reachable_at 120 (init_world 0) /\
  session_hist (init_world 0) !! "node2"%string = Some [] /\
  @ms_to_datetime utc_platform (dict_get sample_snapshot "ts") = Some 1700000000000000 /\
  exists w',
    push_at 120 "node2" (JDict sample_snapshot) (init_world 0) = Ret w' /\
    clock w' = clock (init_world 0) /\
    session_hist w' !! "node2"%string
      = Some [make_row 1700000000000000 sample_snapshot].
Proof.
  assert (@ms_to_datetime utc_platform (dict_get sample_snapshot "ts")
          = Some 1700000000000000) as Hts by (vm_compute; reflexivity).
  split; [apply reachable_init|]. split; [reflexivity|]. split; [exact Hts|].
  destruct (push_history_snapshot_time 120 "node2" sample_snapshot (init_world 0) []
              1700000000000000 (reachable_init 120 0) eq_refl Hts)
    as (w' & Hpush & Hclock & Hdf & _).
  exists w'. split; [exact Hpush|]. split; [exact Hclock|].
  etransitivity; [exact Hdf|]. vm_compute. reflexivity.
Defined.

(** Witness of X4. *)
Lemma push_history_length_witness :
  1 <= 120 /\
  reachable_at 120 world_after_sample /\
  exists df,
    session_hist world_after_sample !! "node2"%string = Some df /\
    exists w' df',
      push_at 120 "node2" (JDict untimed_snapshot) world_after_sample = Ret w' /\
      session_hist w' !! "node2"%string = Some df' /\
      length df' = Nat.min (S (length df)) (Z.to_nat 120).
Proof.
  split; [lia|]. split; [exact world_after_sample_reachable|].
  eexists. split; [exact world_after_sample_frame|].
  exact (push_history_length 120 "node2" untimed_snapshot world_after_sample _
           ltac:(lia) world_after_sample_reachable world_after_sample_frame).
Defined.

(** Witness of X5. *)
Lemma reachable_capacity_witness :
  1 <= 2 /\
  reachable_at 2 world_two_rows /\
  session_hist world_two_rows !! "node2"%string = Some two_rows /\
  Z.of_nat (length two_rows) <= 2.
Proof.
  split; [lia|]. split; [exact world_two_rows_reachable|].
  split; [exact world_two_rows_frame|].
  exact (reachable_capacity 2 world_two_rows "node2" two_rows ltac:(lia)
           world_two_rows_reachable world_two_rows_frame).
Defined.

(** Witness of X6. *)
Lemma push_all_most_recent_witness :
  1 <= 2 /\
  "node2"%string ∈ NODES /\
  exists w df,
    @push_all utc_platform merge_sort_values 2 "node2"
      (numbered_snapshot <$> seq 0 5) (init_world 0) = Ret w /\
    session_hist w !! "node2"%string = Some df /\
    length df = Nat.min (length (numbered_snapshot <$> seq 0 5)) (Z.to_nat 2) /\
    most_recent (Z.to_nat 2)
      (@rows_made utc_platform (numbered_snapshot <$> seq 0 5) (init_world 0)) df.
Proof.
  split; [lia|]. split; [exact node2_known|].
  exact (push_all_most_recent 2 "node2" (numbered_snapshot <$> seq 0 5) 0
           ltac:(lia) node2_known).
Defined.

(** Witness of X7. *)
Lemma push_history_in_order_witness :
  1 <= 2 /\
  reachable_at 2 world_two_rows /\
  session_hist world_two_rows !! "node2"%string = Some two_rows /\
  Forall (fun a => a <= (@resolve_time utc_platform (numbered_snapshot 2) world_two_rows).1)
         (times two_rows) /\
  exists w' df',
    push_at 2 "node2" (JDict (numbered_snapshot 2)) world_two_rows = Ret w' /\
    session_hist w' !! "node2"%string = Some df' /\
    times df' = [1700000001000000; 1700000002000000].
Proof.
  assert (Forall (fun a => a <= (@resolve_time utc_platform (numbered_snapshot 2)
                                   world_two_rows).1) (times two_rows)) as Hle.
  { repeat constructor; vm_compute; discriminate. }
  split; [lia|]. split; [exact world_two_rows_reachable|].
  split; [exact world_two_rows_frame|]. split; [exact Hle|].
  destruct (push_history_in_order 2 "node2" (numbered_snapshot 2) world_two_rows
              two_rows ltac:(lia) world_two_rows_reachable world_two_rows_frame Hle)
    as (w' & df' & Hpush & Hdf' & Htimes).
  exists w', df'. split; [exact Hpush|]. split; [exact Hdf'|].
  etransitivity; [exact Htimes|]. vm_compute. reflexivity.
Defined.

(** Witness of X8. *)
Lemma push_history_late_row_witness :
  1 <= 2 /\
  reachable_at 2 world_two_rows /\
  session_hist world_two_rows !! "node2"%string = Some two_rows /\
  Z.of_nat (length two_rows) = 2 /\
  Forall (fun a => (@resolve_time utc_platform late_snapshot world_two_rows).1 < a)
         (times two_rows) /\
  exists w' df',
    push_at 2 "node2" (JDict late_snapshot) world_two_rows = Ret w' /\
    session_hist w' !! "node2"%string = Some df' /\
    Permutation df' two_rows /\
    times df' = times two_rows /\
    make_row (@resolve_time utc_platform late_snapshot world_two_rows).1 late_snapshot
      ∉ df'.
Proof.
  assert (Forall (fun a => (@resolve_time utc_platform late_snapshot world_two_rows).1 < a)
                 (times two_rows)) as Hlt.
  { repeat constructor. }
  split; [lia|]. split; [exact world_two_rows_reachable|].
  split; [exact world_two_rows_frame|]. split; [reflexivity|]. split; [exact Hlt|].
  exact (push_history_late_row 2 "node2" late_snapshot world_two_rows two_rows
           ltac:(lia) world_two_rows_reachable world_two_rows_frame eq_refl Hlt).
Defined.

(** Witness of X9. *)
Lemma push_history_times_any_sort_witness :
  exists w1,
    @push_history utc_platform merge_sort_values 120 "node2" (JDict sample_snapshot)
      world_after_sample = Ret w1 /\
    exists w2,
      @push_history utc_platform reversing_sort_values 120 "node2"
        (JDict sample_snapshot) world_after_sample = Ret w2 /\
      clock w2 = clock w1 /\
      forall n, times <$> (session_hist w1 !! n) = times <$> (session_hist w2 !! n).
Proof.
  eexists. split; [vm_compute; reflexivity|].
  apply (@push_history_times_any_sort utc_platform merge_sort_values
           reversing_sort_values 120 "node2" (JDict sample_snapshot)
           world_after_sample).
  vm_compute. reflexivity.
Defined.

(** Witness of X10. *)
Lemma negative_capacity_empty_witness :
  -1 < 0 /\
  exists w',
    push_at (-1) "node2" (JDict sample_snapshot) (init_world 0) = Ret w' /\
    reachable_at (-1) w' /\
    forall df, session_hist w' !! "node2"%string = Some df -> df = [].
Proof.
  split; [lia|].
  assert (exists w', push_at (-1) "node2" (JDict sample_snapshot) (init_world 0) = Ret w')
    as [w' Hpush] by (eexists; vm_compute; reflexivity).
  assert (reachable_at (-1) w') as Hw'
    by (eapply reachable_push; [apply reachable_init | exact Hpush]).
  exists w'. split; [exact Hpush|]. split; [exact Hw'|].
  intros df. exact (negative_capacity_empty (-1) w' "node2" df ltac:(lia) Hw').
Defined.

(** Witness of X11. *)
Lemma zero_capacity_keeps_all_witness :
  "node2"%string ∈ NODES /\
  exists w',
    push_at 0 "node2" (JDict sample_snapshot) (init_world 0) = Ret w' /\
    exists df,
      session_hist w' !! "node2"%string = Some df /\
      Permutation df
        [make_row (@resolve_time utc_platform sample_snapshot (init_world 0)).1
                  sample_snapshot] /\
      length df = 1%nat.
Proof.
  split; [exact node2_known|].
  assert (exists w', push_at 0 "node2" (JDict sample_snapshot) (init_world 0) = Ret w')
    as [w' Hpush] by (eexists; vm_compute; reflexivity).
  exists w'. split; [exact Hpush|].
  exact (zero_capacity_keeps_all 0 "node2" w' _ eq_refl node2_known
           (appended_here 0 "node2" (init_world 0) [] sample_snapshot w'
              (appended_init 0 "node2" 0) Hpush)).
Defined.

(** Witness of X13. *)
Lemma live_fetch_not_a_dict_witness :
  is_Some (session_hist world_after_sample !! "node2"%string) /\
  fb_get_last list_store "node2" = Ret (JList [JInt 1; JInt 2]) /\
  exists e,
    @live_fetch utc_platform merge_sort_values 120 list_store "node2"
      world_after_sample = Raise e /\
    exn_type e = AttributeError.
Proof.
  assert (is_Some (session_hist world_after_sample !! "node2"%string)) as Hsome
    by (eexists; exact world_after_sample_frame).
  split; [exact Hsome|]. split; [reflexivity|].
  exact (@live_fetch_not_a_dict utc_platform merge_sort_values 120 list_store "node2"
           world_after_sample (JList [JInt 1; JInt 2]) Hsome eq_refl
           (fun m Heq => eq_ind (JList [JInt 1; JInt 2])
              (fun v => match v with JList _ => True | _ => False end) I _ Heq)).
Defined.

(** Witness of X14. *)
Lemma auto_refresh_unchanged_snapshot_witness :
  reachable_at 120 (init_world 0) /\
  fb_get_last sample_store "node2" = Ret (JDict sample_snapshot) /\
  sample_snapshot <> ∅ /\
  @ms_to_datetime utc_platform (dict_get sample_snapshot "ts") = Some 1700000000000000 /\
  exists w' df',
    @auto_refresh utc_platform merge_sort_values 120
      (replicate 3 ("node2"%string, sample_store)) (init_world 0) = Ret w' /\
    session_hist w' !! "node2"%string = Some df' /\
    length df' = 3%nat /\
    count_time 1700000000000000 df' = 3%nat.
Proof.
  assert (@ms_to_datetime utc_platform (dict_get sample_snapshot "ts")
          = Some 1700000000000000) as Hts by (vm_compute; reflexivity).
  split; [apply reachable_init|]. split; [reflexivity|].
  split; [exact sample_snapshot_not_empty|]. split; [exact Hts|].
  exact (@auto_refresh_unchanged_snapshot utc_platform merge_sort_values 120
           sample_store "node2" sample_snapshot 1700000000000000 3 (init_world 0) []
           (reachable_init 120 0) eq_refl eq_refl sample_snapshot_not_empty Hts
           ltac:(simpl; lia)).
Defined.

(** Witness of X15. *)
Lemma auto_refresh_invariant_witness :
  reachable_at 120 (init_world 0) /\
  exists w',
    @auto_refresh utc_platform merge_sort_values 120
      [("node2"%string, sample_store); ("node2"%string, empty_store);
       ("node1"%string, sample_store)] (init_world 0) = Ret w' /\
    reachable_at 120 w' /\
    forall n df,
      session_hist w' !! n = Some df ->
      n ∈ NODES /\ sorted_by_time df /\ (1 <= 120 -> Z.of_nat (length df) <= 120).
Proof.
  split; [apply reachable_init|].
  assert (exists w', @auto_refresh utc_platform merge_sort_values 120
      [("node2"%string, sample_store); ("node2"%string, empty_store);
       ("node1"%string, sample_store)] (init_world 0) = Ret w')
    as [w' Hrun] by (eexists; vm_compute; reflexivity).
  exists w'. split; [exact Hrun|].
  exact (@auto_refresh_invariant utc_platform merge_sort_values 120 _ (init_world 0) w'
           (reachable_init 120 0) Hrun).
Defined.

(** Witness of X16. *)
Lemma charts_never_with_capacity_one_witness :
  "node2"%string ∈ NODES /\
  exists w,
    push_at 1 "node2" (JDict sample_snapshot) (init_world 0) = Ret w /\
    reachable_at 1 w /\
    charts_drawn "node2" w = Ret false.
Proof.
  split; [exact node2_known|].
  assert (exists w, push_at 1 "node2" (JDict sample_snapshot) (init_world 0) = Ret w)
    as [w Hpush] by (eexists; vm_compute; reflexivity).
  assert (reachable_at 1 w) as Hw
    by (eapply reachable_push; [apply reachable_init | exact Hpush]).
  exists w. split; [exact Hpush|]. split; [exact Hw|].
  exact (@charts_never_with_capacity_one utc_platform merge_sort_values 1 "node2" w
           eq_refl Hw node2_known).
Defined.

(** Witness of X17. *)
Lemma charts_stay_drawn_witness :
  2 <= 2 /\
  reachable_at 2 world_two_rows /\
  charts_drawn "node2" world_two_rows = Ret true /\
  exists w',
    push_at 2 "node2" (JDict late_snapshot) world_two_rows = Ret w' /\
    charts_drawn "node2" w' = Ret true.
Proof.
  split; [lia|]. split; [exact world_two_rows_reachable|]. split; [reflexivity|].
  assert (exists w', push_at 2 "node2" (JDict late_snapshot) world_two_rows = Ret w')
    as [w' Hpush] by (eexists; vm_compute; reflexivity).
  exists w'. split; [exact Hpush|].
  exact (@charts_stay_drawn utc_platform merge_sort_values 2 "node2" "node2"
           (JDict late_snapshot) world_two_rows w' ltac:(lia)
           world_two_rows_reachable eq_refl Hpush).
Defined.

(** Witness of X20. *)
Lemma init_firebase_idempotent_witness :
  init_firebase "https://db.example/" "serviceAccountKey.json" key_loads ∅
    = Ret (true, apps_after_init) /\
  apps_after_init <> ∅ /\
  init_firebase "https://db.example/" "serviceAccountKey.json" key_missing
    apps_after_init = Ret (true, apps_after_init).
Proof.
  assert (init_firebase "https://db.example/" "serviceAccountKey.json" key_loads ∅
          = Ret (true, apps_after_init)) as Hinit by (vm_compute; reflexivity).
  split; [exact Hinit|].
  destruct (init_firebase_idempotent "https://db.example/" "serviceAccountKey.json"
              key_loads ∅ apps_after_init true Hinit) as (_ & Hne & _ & Hagain).
  split; [exact Hne|]. apply Hagain.
Defined.

(** Witness of X21. *)
Lemma init_firebase_raises_witness :
  init_firebase "https://db.example/" "serviceAccountKey.json" key_missing ∅
    = Raise (Exn (OtherException "FileNotFoundError")
               "[Errno 2] No such file or directory: 'serviceAccountKey.json'") /\
  key_missing "serviceAccountKey.json"
    = Raise (Exn (OtherException "FileNotFoundError")
               "[Errno 2] No such file or directory: 'serviceAccountKey.json'").
Proof.
  assert (init_firebase "https://db.example/" "serviceAccountKey.json" key_missing ∅
    = Raise (Exn (OtherException "FileNotFoundError")
               "[Errno 2] No such file or directory: 'serviceAccountKey.json'")) as Hr
    by (vm_compute; reflexivity).
  split; [exact Hr|].
  exact (proj2 (init_firebase_raises "https://db.example/" "serviceAccountKey.json"
                  key_missing ∅ _ Hr)).
Defined.

End ConcreteMore.
